(** * avocado/job.py: the job controller, as a shallow embedding

    The class [Job] of [avocado/job.py] resolves test identifiers to test
    instances, runs them one after the other, collects the names of the
    tests that did not pass and turns the outcome into an exit status.

    The module is Python 2.  Its methods mutate the job object, call
    into the rest of avocado and into the standard library, and signal
    failures with exceptions.  The embedding therefore is monadic: a
    computation takes the current state (the job object and the log of
    calls made on the collaborators) and returns either a value or a
    raised exception, together with the new state.  What lives outside
    [job.py] (the filesystem, [imp], the test classes, the multiplex
    parser, [status.mapping], [traceback]) is collected in the record
    [Env] and every definition is parametrised by it. *)

From stdpp Require Import base strings list gmap.
From Stdlib Require Import ZArith Ascii String.

Local Open Scope string_scope.
Local Open Scope list_scope.

(** ** Strings and paths *)

(** [s.split()]: the maximal runs of characters that are not
    whitespace (space, tab, newline, vertical tab, form feed, carriage
    return), which is [String.words]. *)
Definition str_split_whitespace (s : string) : list string :=
  String.words s.

(** [split_char_go sep cur s]: [cur] is the field being read. *)
Fixpoint split_char_go (sep : ascii) (cur : string) (s : string) : list string :=
  match s with
  | EmptyString => [cur]
  | String c s' =>
      if decide (c = sep) then cur :: split_char_go sep "" s'
      else split_char_go sep (cur +:+ String c "") s'
  end.

(** [s.split(sep)] for a separator of one character: every occurrence of
    the separator ends a field, so the result is never empty. *)
Definition str_split (sep : ascii) (s : string) : list string :=
  split_char_go sep "" s.

(** [s.startswith('/')] and [s.endswith('/')]. *)
Definition startswith_slash (s : string) : bool :=
  match s with
  | String c _ => bool_decide (c = "/"%char)
  | EmptyString => false
  end.

Fixpoint endswith_slash (s : string) : bool :=
  match s with
  | EmptyString => false
  | String c EmptyString => bool_decide (c = "/"%char)
  | String _ s' => endswith_slash s'
  end.

(** [os.path.join(a, b)] of [posixpath]. *)
Definition os_path_join (a b : string) : string :=
  if startswith_slash b then b
  else if bool_decide (a = "") || endswith_slash a then a +:+ b
  else a +:+ "/" +:+ b.

(** [repr(s)] of a [str], as [KeyError] shows its key.  The quote is
    the double one when the string has a single quote and no double
    one; the quote and the backslash are escaped, tab, newline and
    carriage return are written with their letter, and any other
    character outside the printable range as [\xNN]. *)
Definition double_quote : ascii := ascii_of_nat 34.
Definition backslash : ascii := ascii_of_nat 92.

Fixpoint str_contains (c : ascii) (s : string) : bool :=
  match s with
  | EmptyString => false
  | String c' s' => bool_decide (c' = c) || str_contains c s'
  end.

Definition hex_digit (n : nat) : ascii :=
  if (n <? 10)%nat then ascii_of_nat (48 + n) else ascii_of_nat (87 + n).

Definition repr_char (quote : ascii) (c : ascii) : string :=
  let n := nat_of_ascii c in
  if bool_decide (c = quote) || bool_decide (c = backslash)
  then String backslash (String c "")
  else if (n =? 9)%nat then String backslash "t"
  else if (n =? 10)%nat then String backslash "n"
  else if (n =? 13)%nat then String backslash "r"
  else if (n <? 32)%nat || (127 <=? n)%nat
  then String backslash
         (String "x" (String (hex_digit (n / 16)) (String (hex_digit (n mod 16)) "")))
  else String c "".

Fixpoint repr_chars (quote : ascii) (s : string) : string :=
  match s with
  | EmptyString => EmptyString
  | String c s' => repr_char quote c +:+ repr_chars quote s'
  end.

Definition py_repr (s : string) : string :=
  let quote :=
    if str_contains "'" s && negb (str_contains double_quote s)
    then double_quote else "'"%char in
  String quote (repr_chars quote s +:+ String quote "").

(** ** Exceptions *)

(** The exception classes the module can meet.  [except] clauses match
    by class, so the hierarchy matters: [KeyboardInterrupt] and
    [SystemExit] derive from [BaseException] but not from [Exception];
    [JobBaseException cls st] stands for the class [cls] deriving from
    [avocado.core.exceptions.JobBaseException] whose attribute [status]
    is [st]; [OtherException cls] is any other class deriving from
    [Exception]. *)
Inductive ExcClass :=
  | ImportError
  | AttributeError
  | UnboundLocalError
  | KeyError
  | IndexError
  | KeyboardInterrupt
  | SystemExit
  | JobBaseException (cls : string) (st : string)
  | OtherException (cls : string).

(** [e.__class__.__name__] *)
Definition class_name (c : ExcClass) : string :=
  match c with
  | ImportError => "ImportError"
  | AttributeError => "AttributeError"
  | UnboundLocalError => "UnboundLocalError"
  | KeyError => "KeyError"
  | IndexError => "IndexError"
  | KeyboardInterrupt => "KeyboardInterrupt"
  | SystemExit => "SystemExit"
  | JobBaseException cls _ => cls
  | OtherException cls => cls
  end.

(** [isinstance(e, ImportError)] *)
Definition is_ImportError (c : ExcClass) : bool :=
  match c with ImportError => true | _ => false end.

(** [isinstance(e, exceptions.JobBaseException)] *)
Definition is_JobBaseException (c : ExcClass) : bool :=
  match c with JobBaseException _ _ => true | _ => false end.

(** [isinstance(e, Exception)] *)
Definition is_Exception (c : ExcClass) : bool :=
  match c with KeyboardInterrupt | SystemExit => false | _ => true end.

(** A raised exception: its class, [str(e)], and the traceback built
    while it unwinds, outermost frame first.  A frame is named by the
    function it belongs to. *)
Record Exc := mkExc {
  exc_class : ExcClass;
  exc_msg : string;
  exc_tb : list string
}.

(** [details.status] of a job-level failure. *)
Definition exc_status (e : Exc) : option string :=
  match exc_class e with
  | JobBaseException _ st => Some st
  | _ => None
  end.

Inductive Result (A : Type) :=
  | Ok (a : A)
  | Raise (e : Exc).
Arguments Ok {A} a.
Arguments Raise {A} e.

(** ** Data model *)

(** A parameter set: a [dict] from strings to strings. *)
Abbreviation Params := (gmap string string).

(** [args], an [argparse.Namespace].  The attributes [test_runner] and
    [test_result] are looked up with [hasattr]: [None] is an absent
    attribute, [Some n] names the plugged-in runner or result class.  The
    last three attributes are written by [_make_test_result]. *)
Record Args := mkArgs {
  arg_unique_id : option string;
  arg_log_level : option Z;
  arg_multiplex_file : option string;
  arg_url : option string;
  arg_keep_tmp_files : bool;
  arg_test_runner : option string;
  arg_test_result : option string;
  arg_test_result_debuglog : option string;
  arg_test_result_loglevel : option Z;
  arg_test_result_total : option nat
}.

(** The attributes of a [Job] object. *)
Record Job := mkJob {
  args : option Args;
  unique_id : string;
  debugdir : string;
  debuglog : string;
  loglevel : Z;
  multiplex_file : option string;
  test_dir : string;
  test_index : Z;
  status : string
}.

(** The classes [_load_test_instance] instantiates: [test.DropinTest],
    [test.MissingTest], or a class found in a test module. *)
Inductive TestClass :=
  | DropinTest
  | MissingTest
  | ModuleTest (cls : string).

(** What a test module has under a name: a class (or another callable),
    which is called to make an instance, or an object of another type,
    named by its type, which cannot be called. *)
Inductive ModuleAttr :=
  | AttrClass (cls : string)
  | AttrObject (type_name : string).

(** What the local variable [test_class] of [_load_test_instance] is
    bound to when it is called. *)
Inductive Callee :=
  | CallClass (c : TestClass)
  | CallObject (type_name : string).

(** A test instance, by the keyword arguments it was constructed with.
    [ti_name] is its attribute [name]: the argument [name], or what
    [test.DropinTest] makes of the path when the instance is made from
    a path.  [ti_job] is the reference to the owning job, held as its
    [unique_id]; [ti_status] is the attribute [status], [None] until the
    test has run.  The constructors of [test.DropinTest] and
    [test.MissingTest] are taken to return; the constructor of a class
    found in a test module may raise, see [test_init] below. *)
Record TestInstance := mkTest {
  ti_class : TestClass;
  ti_name : string;
  ti_path : option string;
  ti_base_logdir : string;
  ti_params : option Params;
  ti_job : string;
  ti_status : option string
}.

(** The result collaborator, [test_result_class(output_manager, args)]. *)
Record TestResult := mkTestResult {
  tr_class : string;
  tr_args : option Args
}.

(** What the job does to its collaborators, in the order it does it:
    the construction of the result object and its three hooks, the call
    of [run_avocado] on an instance, [data_dir.clean_tmp_files()], and
    the two methods of the output manager.  All of these but
    [run_avocado] are taken to return. *)
Inductive Event :=
  | EvTestResult (r : TestResult)
  | EvStartTests
  | EvCheckTest (t : TestInstance)
  | EvEndTests
  | EvRunAvocado (t : TestInstance)
  | EvCleanTmpFiles
  | EvLogFailHeader (msg : string)
  | EvError (msg : string).

(** The keys of [error_codes.numeric_status]; the integers behind them
    are defined in [avocado.core.error_codes]. *)
Inductive ExitStatus :=
  | AVOCADO_ALL_OK
  | AVOCADO_TESTS_FAIL
  | AVOCADO_JOB_FAIL
  | AVOCADO_CRASH.

(** The argument [urls] of [run]: a string or a list of strings. *)
Inductive Urls :=
  | UrlsStr (s : string)
  | UrlsList (l : list string).

(** ** The world outside job.py *)

(** What [imp.find_module] returns: the open file ([None] for a
    package), the pathname and the description. *)
Record FoundModule := mkFound {
  fm_file : option string;
  fm_pathname : string;
  fm_description : string
}.

(** Outcome of [test_instance.run_avocado()]: it raises, or it returns
    having set the status of the instance and, through its reference to
    the job, possibly the status of the job. *)
Inductive RunOutcome :=
  | RunRaises (e : Exc)
  | RunReturns (test_status : option string) (job_status : option string).

(** Outcome of a runner plugged in through [args.test_runner]. *)
Record RunnerOutcome := mkRunnerOutcome {
  ro_result : Result (list string);
  ro_events : list Event;
  ro_job_status : option string
}.

Record Env := mkEnv {
  (** [os.path.abspath] and [os.path.exists] *)
  os_path_abspath : string -> string;
  os_path_exists : string -> bool;
  (** [imp.find_module(name, path)]; [None] is [ImportError] *)
  imp_find_module : string -> list string -> option FoundModule;
  (** [imp.load_module(name, f, p, d)]: the exception raised while the
      module is imported, or its namespace *)
  imp_load_module : string -> FoundModule -> Exc + gmap string ModuleAttr;
  (** the name [test.DropinTest] gives an instance made from a path *)
  dropin_name : string -> string;
  (** [run_avocado] of a constructed instance *)
  run_avocado : TestInstance -> RunOutcome;
  (** [status.mapping]; [None] is a missing key *)
  status_mapping : string -> option bool;
  (** [multiplex_config.Parser(file)], [only_filter(url)] when a filter
      is given, then the list of [get_dicts()] *)
  multiplex_get_dicts : string -> option string -> Result (list Params);
  (** [traceback.format_exception(etype, value, tb)] *)
  format_exception : ExcClass -> string -> list string -> list string;
  (** [str(uuid.uuid4())], [data_dir.get_job_logs_dir(args)],
      [data_dir.get_test_dir()] *)
  uuid4 : string;
  get_job_logs_dir : option Args -> string;
  get_test_dir : string;
  (** the runner named by [args.test_runner] *)
  plugin_test_runner : string -> list Params -> TestResult -> Job -> RunnerOutcome;
  (** the constructor of the class [cls] of a test module, called as
      [cls(name=..., base_logdir=..., params=..., job=...)]: [None] when
      it returns the instance, the exception when it raises *)
  test_init : string -> string -> string -> Params -> string -> option Exc
}.

(** ** The monad of job methods *)

Record State := mkState {
  job : Job;
  events : list Event
}.

Definition M (A : Type) : Type := State -> Result A * State.

Definition ret {A} (a : A) : M A := fun s => (Ok a, s).

Definition bind {A B} (m : M A) (k : A -> M B) : M B :=
  fun s => match m s with
           | (Ok a, s') => k a s'
           | (Raise e, s') => (Raise e, s')
           end.

Notation "x <- m ;; k" := (bind m (fun x => k))
  (at level 100, m at next level, right associativity).
Notation "m ;;; k" := (bind m (fun _ => k))
  (at level 100, right associativity).

(** [raise cls(msg)] *)
Definition raise {A} (c : ExcClass) (msg : string) : M A :=
  fun s => (Raise (mkExc c msg []), s).

(** A value or an exception coming from outside. *)
Definition lift {A} (r : Result A) : M A := fun s => (r, s).

(** [self] *)
Definition get_self : M Job := fun s => (Ok (job s), s).

(** The job with its attribute [status], or [args], replaced. *)
Definition set_job_status (j : Job) (st : string) : Job :=
  mkJob (args j) (unique_id j) (debugdir j) (debuglog j) (loglevel j)
        (multiplex_file j) (test_dir j) (test_index j) st.

Definition set_job_args (j : Job) (a : option Args) : Job :=
  mkJob a (unique_id j) (debugdir j) (debuglog j) (loglevel j)
        (multiplex_file j) (test_dir j) (test_index j) (status j).

(** [self.status = st] *)
Definition set_status (st : string) : M unit :=
  fun s => (Ok tt, mkState (set_job_status (job s) st) (events s)).

(** An assignment to an attribute of [self.args], the namespace being
    [a] afterwards. *)
Definition set_args (a : Args) : M unit :=
  fun s => (Ok tt, mkState (set_job_args (job s) (Some a)) (events s)).

Definition emit (ev : Event) : M unit :=
  fun s => (Ok tt, mkState (job s) (events s ++ [ev])).

Definition emit_all (evs : list Event) : M unit :=
  fun s => (Ok tt, mkState (job s) (events s ++ evs)).

(** The body of a function named [f]: an exception that leaves it gets
    the frame of [f] in front of its traceback. *)
Definition in_frame {A} (f : string) (m : M A) : M A :=
  fun s => match m s with
           | (Raise e, s') =>
               (Raise (mkExc (exc_class e) (exc_msg e) (f :: exc_tb e)), s')
           | r => r
           end.

(** The [except] clauses of a [try] statement: a class test and a
    handler each.  The first clause whose test accepts the exception
    handles it; what a handler raises is not handled by its siblings. *)
Fixpoint handle {A} (clauses : list ((ExcClass -> bool) * (Exc -> M A)))
    (e : Exc) : M A :=
  match clauses with
  | [] => fun s => (Raise e, s)
  | (catches, h) :: rest =>
      if catches (exc_class e) then h e else handle rest e
  end.

(** [try: m  except C1, details: h1  except C2, details: h2 ...] *)
Definition try_except {A} (m : M A)
    (clauses : list ((ExcClass -> bool) * (Exc -> M A))) : M A :=
  fun s => match m s with
           | (Raise e, s') => handle clauses e s'
           | r => r
           end.

(** [try: m  finally: fin].  The try part assigns one local variable;
    the finally part finds it bound when the try part completed and
    unbound when an exception is pending.  An exception raised by the
    finally part replaces the pending one; otherwise the pending one is
    raised again when the finally part is done. *)
Definition try_finally {A B} (m : M A) (fin : option A -> M B) : M B :=
  fun s => match m s with
           | (Ok a, s') => fin (Some a) s'
           | (Raise e, s') =>
               match fin None s' with
               | (Ok _, s'') => (Raise e, s'')
               | (Raise e', s'') => (Raise e', s'')
               end
           end.

(** [bool(l)] of a list *)
Definition list_bool {A} (l : list A) : bool :=
  match l with
  | [] => false
  | _ :: _ => true
  end.

(** [for x in l: acc = body(acc, x)] *)
Fixpoint for_each {A B} (body : B -> A -> M B) (l : list A) (acc : B) : M B :=
  match l with
  | [] => ret acc
  | x :: l' => acc' <- body acc x ;; for_each body l' acc'
  end.

(** ** The class Job *)

Section Job.

Context (E : Env).

(** [x or d] on an optional string and on an optional integer: [None],
    the empty string and [0] are false. *)
Definition or_string (x : option string) (d : string) : string :=
  match x with
  | Some v => if decide (v = "") then d else v
  | None => d
  end.

Definition or_int (x : option Z) (d : Z) : Z :=
  match x with
  | Some v => if decide (v = 0%Z) then d else v
  | None => d
  end.

(** [logging.DEBUG] *)
Definition logging_DEBUG : Z := 10.

(** [Job.__init__(self, args=None)] *)
Definition Job_init (a : option Args) : Job :=
  let unique_id :=
    match a with
    | Some a' => or_string (arg_unique_id a') (uuid4 E)
    | None => uuid4 E
    end in
  let debugdir := get_job_logs_dir E a in
  let debuglog := os_path_join debugdir "debug.log" in
  let loglevel :=
    match a with
    | Some a' => or_int (arg_log_level a') logging_DEBUG
    | None => logging_DEBUG
    end in
  let multiplex_file :=
    match a with
    | Some a' => arg_multiplex_file a'
    | None => None
    end in
  mkJob a unique_id debugdir debuglog loglevel multiplex_file
        (get_test_dir E) 1 "RUNNING".

(** [test_class(path=..., base_logdir=..., job=...)] *)
Definition new_test_by_path (c : TestClass) (path base_logdir : string)
    (self : Job) : TestInstance :=
  mkTest c (dropin_name E path) (Some path) base_logdir None
         (unique_id self) None.

(** [test_class(name=..., base_logdir=..., params=..., job=...)] *)
Definition new_test_by_name (c : TestClass) (name base_logdir : string)
    (params : Params) (self : Job) : TestInstance :=
  mkTest c name None base_logdir (Some params) (unique_id self) None.

(** The call [test_class(name=..., base_logdir=..., params=..., job=...)]
    of line 96: an object that is no class cannot be called, and the
    constructor of a class found in a test module may raise. *)
Definition call_test_class (callee : Callee) (name base_logdir : string)
    (params : Params) (self : Job) : M TestInstance :=
  match callee with
  | CallObject type_name =>
      raise (OtherException "TypeError")
            ("'" +:+ type_name +:+ "' object is not callable")
  | CallClass (ModuleTest cls) =>
      match test_init E cls name base_logdir params (unique_id self) with
      | Some e => lift (Raise e)
      | None =>
          ret (new_test_by_name (ModuleTest cls) name base_logdir params self)
      end
  | CallClass c => ret (new_test_by_name c name base_logdir params self)
  end.

(** [Job._load_test_instance(self, params)] *)
Definition _load_test_instance (params : Params) : M TestInstance :=
  in_frame "_load_test_instance"
   (self <- get_self ;;
    shortname <- match params !! "shortname" with
                 | Some v => ret v
                 | None => raise AttributeError
                             "'NoneType' object has no attribute 'split'"
                 end ;;
    url <- match str_split "." shortname !! 0%nat with
           | Some u => ret u
           | None => raise IndexError "list index out of range"
           end ;;
    let path_attempt := os_path_abspath E url in
    if os_path_exists E path_attempt then
      let test_class := DropinTest in
      ret (new_test_by_path test_class path_attempt (debugdir self) self)
    else
      try_finally
        (try_except
           (let test_module_dir := os_path_join (test_dir self) url in
            fpd <- match imp_find_module E url [test_module_dir] with
                   | Some r => ret r
                   | None => raise ImportError ("No module named " +:+ url)
                   end ;;
            test_module <- match imp_load_module E url fpd with
                           | inr m => ret m
                           | inl e => lift (Raise e)
                           end ;;
            match fm_file fpd with
            | Some _ => ret tt
            | None => raise AttributeError
                        "'NoneType' object has no attribute 'close'"
            end ;;;
            match test_module !! url with
            | Some (AttrClass cls) => ret (CallClass (ModuleTest cls))
            | Some (AttrObject type_name) => ret (CallObject type_name)
            | None => raise AttributeError
                        ("'module' object has no attribute '" +:+ url +:+ "'")
            end)
           [(is_ImportError, fun _ => ret (CallClass MissingTest))])
        (fun test_class =>
           match test_class with
           | Some callee =>
               call_test_class callee url (debugdir self) params self
           | None => raise UnboundLocalError
                       "local variable 'test_class' referenced before assignment"
           end)).

(** [test_instance.status = st] *)
Definition set_test_status (t : TestInstance) (st : option string)
    : TestInstance :=
  mkTest (ti_class t) (ti_name t) (ti_path t) (ti_base_logdir t)
         (ti_params t) (ti_job t) st.

(** [test_instance.run_avocado()]: the instance and the job are updated
    in place. *)
Definition call_run_avocado (t : TestInstance) : M TestInstance :=
  emit (EvRunAvocado t) ;;;
  match run_avocado E t with
  | RunRaises e => lift (Raise e)
  | RunReturns st js =>
      match js with
      | Some v => set_status v
      | None => ret tt
      end ;;;
      ret (set_test_status t st)
  end.

(** [Job.run_test(self, params)] *)
Definition run_test (params : Params) : M TestInstance :=
  in_frame "run_test"
   (test_instance <- _load_test_instance params ;;
    test_instance <- call_run_avocado test_instance ;;
    ret test_instance).

(** [status.mapping[st]]; [str] of the [KeyError] of a missing key is
    the [repr] of the key. *)
Definition status_mapping_getitem (st : option string) : M bool :=
  match st with
  | Some v =>
      match status_mapping E v with
      | Some b => ret b
      | None => raise KeyError (py_repr v)
      end
  | None => raise KeyError "None"
  end.

(** The body of the loop of [test_runner]. *)
Definition test_runner_body (test_result : TestResult)
    (failures : list string) (params : Params) : M (list string) :=
  test_instance <- run_test params ;;
  emit (EvCheckTest test_instance) ;;;
  passed <- status_mapping_getitem (ti_status test_instance) ;;
  if negb passed then ret (failures ++ [ti_name test_instance])
  else ret failures.

(** [Job.test_runner(self, params_list, test_result)] *)
Definition test_runner (params_list : list Params) (test_result : TestResult)
    : M (list string) :=
  in_frame "test_runner"
   (let failures := [] in
    emit EvStartTests ;;;
    failures <- for_each (test_runner_body test_result) params_list failures ;;
    emit EvEndTests ;;;
    ret failures).

(** A runner taken from [args.test_runner]. *)
Definition call_plugin_test_runner (n : string) (params_list : list Params)
    (test_result : TestResult) : M (list string) :=
  self <- get_self ;;
  let o := plugin_test_runner E n params_list test_result self in
  emit_all (ro_events o) ;;;
  match ro_job_status o with
  | Some v => set_status v
  | None => ret tt
  end ;;;
  lift (ro_result o).

(** [Job._make_test_runner(self)] *)
Definition _make_test_runner
    : M (list Params -> TestResult -> M (list string)) :=
  in_frame "_make_test_runner"
   (self <- get_self ;;
    match args self with
    | Some a =>
        match arg_test_runner a with
        | Some n => ret (call_plugin_test_runner n)
        | None => ret test_runner
        end
    | None => ret test_runner
    end).

(** [Job._make_test_result(self, urls)] *)
Definition _make_test_result (urls : list Params) : M TestResult :=
  in_frame "_make_test_result"
   (self <- get_self ;;
    let test_result_class :=
      match args self with
      | Some a =>
          match arg_test_result a with
          | Some c => c
          | None => "HumanTestResult"
          end
      | None => "HumanTestResult"
      end in
    match args self with
    | Some a =>
        set_args (mkArgs (arg_unique_id a) (arg_log_level a)
                         (arg_multiplex_file a) (arg_url a)
                         (arg_keep_tmp_files a) (arg_test_runner a)
                         (arg_test_result a)
                         (Some (debuglog self)) (Some (loglevel self))
                         (Some (List.length urls)))
    | None => ret tt
    end ;;;
    self <- get_self ;;
    let test_result := mkTestResult test_result_class (args self) in
    emit (EvTestResult test_result) ;;;
    ret test_result).

(** The bare parameter set of an identifier, [{'shortname': url}]. *)
Definition bare_params (url : string) : Params := {[ "shortname" := url ]}.

(** Lines 165-170 of [_run]: the identifiers to run, from the argument or
    from [args.url]. *)
Definition _run_urls (self : Job) (urls : option Urls) : option (list string) :=
  match urls with
  | None =>
      match args self with
      | Some a =>
          match arg_url a with
          | Some u => Some (str_split_whitespace u)
          | None => None
          end
      | None => None
      end
  | Some (UrlsStr s) => Some (str_split_whitespace s)
  | Some (UrlsList l) => Some l
  end.

(** Lines 172-174: [for url in urls: params_list.append({'shortname': url})] *)
Definition _run_bare_list (urls : option (list string)) (params_list : list Params)
    : list Params :=
  match urls with
  | Some us => fold_left (fun pl url => pl ++ [bare_params url]) us params_list
  | None => params_list
  end.

(** Lines 176-180: the multiplex file, from the argument or from
    [args.multiplex_file], made absolute. *)
Definition _run_multiplex_file (self : Job) (multiplex_file : option string)
    : option string :=
  match multiplex_file with
  | None =>
      match args self with
      | Some a =>
          match arg_multiplex_file a with
          | Some f => Some (os_path_abspath E f)
          | None => None
          end
      | None => None
      end
  | Some f => Some (os_path_abspath E f)
  end.

(** Lines 186-193: the body of the loop over the identifiers when there
    is a multiplex file. *)
Definition _run_multiplex_body (multiplex_file : string)
    (params_list : list Params) (url : string) : M (list Params) :=
  dcts <- lift (multiplex_get_dicts E multiplex_file (Some url)) ;;
  match dcts with
  | [] => ret (params_list ++ [bare_params url])
  | _ => ret (fold_left (fun pl dct => pl ++ [dct]) dcts params_list)
  end.

(** Lines 182-197: with a multiplex file the list is started again. *)
Definition _run_multiplex (urls : option (list string))
    (multiplex_file : option string) (params_list : list Params)
    : M (list Params) :=
  match multiplex_file with
  | Some mf =>
      let params_list := [] in
      match urls with
      | Some us => for_each (_run_multiplex_body mf) us params_list
      | None =>
          dcts <- lift (multiplex_get_dicts E mf None) ;;
          ret (fold_left (fun pl dct => pl ++ [dct]) dcts params_list)
      end
  | None => ret params_list
  end.

(** Lines 164-197: the parameter sets of the run. *)
Definition _run_params_list (urls : option Urls) (multiplex_file : option string)
    : M (list Params) :=
  self <- get_self ;;
  let params_list := [] in
  let urls := _run_urls self urls in
  let params_list := _run_bare_list urls params_list in
  let multiplex_file := _run_multiplex_file self multiplex_file in
  _run_multiplex urls multiplex_file params_list.

(** Lines 164-202: up to the return of the runner, which gives the list
    of failures. *)
Definition _run_loop (urls : option Urls) (multiplex_file : option string)
    : M (list string) :=
  params_list <- _run_params_list urls multiplex_file ;;
  test_result <- _make_test_result params_list ;;
  test_runner <- _make_test_runner ;;
  test_runner params_list test_result.

(** Lines 203-213: the status of the job, the clean-up and the exit
    status. *)
Definition _run_finish (failures : list string) : M ExitStatus :=
  self <- get_self ;;
  (if decide (status self = "RUNNING") then set_status "PASS" else ret tt) ;;;
  self <- get_self ;;
  match args self with
  | Some a => if negb (arg_keep_tmp_files a) then emit EvCleanTmpFiles else ret tt
  | None => ret tt
  end ;;;
  let tests_status := negb (list_bool failures) in
  if tests_status then ret AVOCADO_ALL_OK else ret AVOCADO_TESTS_FAIL.

(** [Job._run(self, urls=None, multiplex_file=None)] *)
Definition _run (urls : option Urls) (multiplex_file : option string)
    : M ExitStatus :=
  in_frame "_run"
   (failures <- _run_loop urls multiplex_file ;;
    _run_finish failures).

(** The link printed after a crash. *)
Definition _NEW_ISSUE_LINK : string :=
  "https://github.com/avocado-framework/avocado/issues/new".

(** [self.output_manager.log_fail_header(msg)] and
    [self.output_manager.error(msg)] *)
Definition log_fail_header (msg : string) : M unit := emit (EvLogFailHeader msg).
Definition output_error (msg : string) : M unit := emit (EvError msg).

(** [exc_traceback.tb_next]: the traceback without its first frame. *)
Definition tb_next (tb : list string) : list string := tail tb.

(** The handler [except exceptions.JobBaseException, details] of [run]. *)
Definition run_except_JobBaseException (details : Exc) : M ExitStatus :=
  match exc_status details with
  | Some st => set_status st
  | None => raise AttributeError "status"
  end ;;;
  let fail_class := class_name (exc_class details) in
  log_fail_header ("Avocado job failed: " +:+ fail_class +:+ ": "
                   +:+ exc_msg details) ;;;
  ret AVOCADO_JOB_FAIL.

(** The handler [except Exception, details] of [run]. *)
Definition run_except_Exception (details : Exc) : M ExitStatus :=
  set_status "ERROR" ;;;
  let exc_type := exc_class details in
  let exc_value := exc_msg details in
  let exc_traceback := exc_tb details in
  let tb_info := format_exception E exc_type exc_value (tb_next exc_traceback) in
  let fail_class := class_name (exc_class details) in
  log_fail_header ("Avocado crashed: " +:+ fail_class +:+ ": "
                   +:+ exc_msg details) ;;;
  for_each (fun _ line => output_error line) tb_info tt ;;;
  log_fail_header ("Please include the traceback "
                   +:+ "info and command line used on "
                   +:+ "your bug report") ;;;
  log_fail_header ("Report bugs visiting " +:+ _NEW_ISSUE_LINK) ;;;
  ret AVOCADO_CRASH.

(** [Job.run(self, urls=None, multiplex_file=None)].  The try part runs
    in the frame of [run], which is therefore the first frame of the
    traceback the handlers see; the handlers are tried in order. *)
Definition run (urls : option Urls) (multiplex_file : option string)
    : M ExitStatus :=
  try_except
    (in_frame "run" (_run urls multiplex_file))
    [(is_JobBaseException, run_except_JobBaseException);
     (is_Exception, run_except_Exception)].

End Job.

(** ** The class TestModuleRunner *)

(** What [TestModuleRunner.__init__] asks of the interpreter, for
    objects of a type [O]: [__import__(name)], [getattr(obj, name)],
    the items of [obj.__dict__] in the order [iteritems()] yields them,
    and [issubclass(value, test.Test)], where [None] is the [TypeError]
    raised for a value that is not a class.  The left injection is a
    raised exception. *)
Record Python (O : Type) := mkPython {
  py_import : string -> Exc + O;
  py_getattr : O -> string -> Exc + O;
  py_dict_items : O -> Exc + list (string * O);
  py_issubclass_Test : O -> option bool
}.
Arguments py_import {O} _ _.
Arguments py_getattr {O} _ _ _.
Arguments py_dict_items {O} _ _.
Arguments py_issubclass_Test {O} _ _.

(** The argument [module]: a name or a module object. *)
Inductive ModuleArg (O : Type) :=
  | ModuleName (name : string)
  | ModuleObject (o : O).
Arguments ModuleName {O} name.
Arguments ModuleObject {O} o.

(** [sys.exit(code)].  The constructor ends in it on every path that
    raises nothing else, so its outcome is given as the code it exits
    with, and [Raise] is kept for the other exceptions. *)
Inductive Exited :=
  | SysExit (code : ExitStatus).

Section TestModuleRunner.

Context {O : Type} (Py : Python O) (E : Env).

(** An exception that leaves [__init__]. *)
Definition from_init (e : Exc) : Exc :=
  mkExc (exc_class e) (exc_msg e) ("__init__" :: exc_tb e).

(** Lines 268-269:
    [for part in ...: self.module = getattr(self.module, part)] *)
Fixpoint getattr_path (m : O) (parts : list string) : Result O :=
  match parts with
  | [] => Ok m
  | part :: rest =>
      match py_getattr Py m part with
      | inl e => Raise e
      | inr m' => getattr_path m' rest
      end
  end.

(** Lines 266-271: the module the runner works on. *)
Definition runner_module (module : ModuleArg O) : Result O :=
  match module with
  | ModuleName name =>
      match py_import Py name with
      | inl e => Raise e
      | inr m => getattr_path m (tail (str_split "." name))
      end
  | ModuleObject o => Ok o
  end.

(** Lines 272-278: the key of the last item that is a subclass of
    [test.Test]; a [TypeError] is passed over. *)
Definition runner_url (items : list (string * O)) : option string :=
  fold_left (fun url kv =>
               match py_issubclass_Test Py kv.2 with
               | Some true => Some kv.1
               | _ => url
               end)
            items None.

(** [TestModuleRunner.__init__(self, module='__main__')], with the job
    it made, if it came to make one. *)
Definition TestModuleRunner_init (module : ModuleArg O)
    : Result Exited * option State :=
  match runner_module module with
  | Raise e => (Raise (from_init e), None)
  | Ok m =>
      match py_dict_items Py m with
      | inl e => (Raise (from_init e), None)
      | inr items =>
          let url := runner_url items in
          let s := mkState (Job_init E None) [] in
          match url with
          | Some u =>
              match run E (Some (UrlsList [u])) None s with
              | (Ok c, s') => (Ok (SysExit c), Some s')
              | (Raise e, s') => (Raise (from_init e), Some s')
              end
          | None => (Ok (SysExit AVOCADO_ALL_OK), Some s)
          end
      end
  end.

End TestModuleRunner.

(** ** The words of the specification *)

(** Following the spec: the substring of an identifier before its first
    ['.'], the whole identifier when it has none. *)
Fixpoint identifier_prefix (s : string) : string :=
  match s with
  | EmptyString => EmptyString
  | String c s' =>
      if decide (c = "."%char) then EmptyString
      else String c (identifier_prefix s')
  end.


(** The attributes of the job the resolver reads. *)
Definition same_identity (j j' : Job) : Prop :=
  debugdir j = debugdir j' /\ test_dir j = test_dir j' /\
  unique_id j = unique_id j'.

(** The instance the resolver returns for a parameter set on a job, or
    the exception it raises. *)
Definition resolve (E : Env) (j : Job) (params : Params) : Result TestInstance :=
  (_load_test_instance E params (mkState j [])).1.

(** One test of the loop that ran to its end: the instance the resolver
    made, the status [run_avocado] left on it, the status it may have
    written on the job, and what [status.mapping] says of its status. *)
Record Ran := mkRan {
  ran_test : TestInstance;
  ran_status : string;
  ran_job_status : option string;
  ran_passed : bool
}.

(** The instance as [check_test] sees it. *)
Definition finished (r : Ran) : TestInstance :=
  set_test_status (ran_test r) (Some (ran_status r)).

(** The parameter set [params] resolves to the instance of [r], which
    runs to the status of [r]. *)
Definition runs_as (E : Env) (j : Job) (params : Params) (r : Ran) : Prop :=
  resolve E j params = Ok (ran_test r) /\
  run_avocado E (ran_test r) = RunReturns (Some (ran_status r)) (ran_job_status r) /\
  status_mapping E (ran_status r) = Some (ran_passed r).

(** Following the spec: the names of the tests whose status maps to not
    passing, in the order they ran. *)
Definition failures_of (rs : list Ran) : list string :=
  map (fun r => ti_name (finished r))
      (List.filter (fun r => negb (ran_passed r)) rs).

(** Following the spec: each test is run, then the collaborator is told
    of the finished instance, one test after the other. *)
Definition loop_trace (rs : list Ran) : list Event :=
  List.concat (map (fun r => [EvRunAvocado (ran_test r); EvCheckTest (finished r)]) rs).

(** The status of the job once the tests of [rs] ran: the last one
    written by a test, or the one it had. *)
Definition job_status_after (rs : list Ran) (st : string) : string :=
  fold_left (fun acc r => default acc (ran_job_status r)) rs st.

(** Following the spec: [ALL_OK] if the list of failures is empty, else
    [TESTS_FAIL]. *)
Definition exit_status_of (failures : list string) : ExitStatus :=
  match failures with
  | [] => AVOCADO_ALL_OK
  | _ :: _ => AVOCADO_TESTS_FAIL
  end.

(** ** Properties of computations *)

(** Every run of [m] takes a state to a state related to it by [P],
    whether it returns or raises. *)
Definition preserves (P : State -> State -> Prop) {A} (m : M A) : Prop :=
  forall s, P s (m s).2.

(** A computation that neither reads nor writes the state. *)
Definition stateless {A} (m : M A) : Prop :=
  exists r, forall s, m s = (r, s).

(** The number of calls of [data_dir.clean_tmp_files()] in a log. *)
Fixpoint cleanups (evs : list Event) : nat :=
  match evs with
  | [] => 0
  | EvCleanTmpFiles :: evs' => S (cleanups evs')
  | _ :: evs' => cleanups evs'
  end.

(** No clean-up is done between the two states, and what decides the
    clean-up and the choice of the runner is as it was. *)
Definition quiet (s s' : State) : Prop :=
  cleanups (events s') = cleanups (events s) /\
  arg_keep_tmp_files <$> args (job s') = arg_keep_tmp_files <$> args (job s) /\
  arg_test_runner <$> args (job s') = arg_test_runner <$> args (job s).

(** The clean-ups a run owes: one when it returned and [args] is there
    with [keep_tmp_files] false, none otherwise. *)
Definition cleanup_due {A} (r : Result A) (j : Job) : nat :=
  match r, args j with
  | Ok _, Some a => if arg_keep_tmp_files a then 0 else 1
  | _, _ => 0
  end.

(** The job uses [Job.test_runner]: [args] has no attribute
    [test_runner]. *)
Definition default_runner (j : Job) : Prop :=
  forall a, args j = Some a -> arg_test_runner a = None.

(** Two jobs that a run cannot tell apart but for their status, their
    log settings and the attributes [_make_test_result] writes. *)
Definition same_config (j j' : Job) : Prop :=
  same_identity j j' /\
  arg_url <$> args j = arg_url <$> args j' /\
  arg_multiplex_file <$> args j = arg_multiplex_file <$> args j' /\
  arg_test_runner <$> args j = arg_test_runner <$> args j'.

(** What of an instance does not come from the parameter set: its
    class, its name and its path. *)
Definition ti_kind (t : TestInstance) : TestClass * string * option string :=
  (ti_class t, ti_name t, ti_path t).

(** Nothing of the job but its status is written between the two
    states. *)
Definition only_status_written (s s' : State) : Prop :=
  exists st, job s' = set_job_status (job s) st.

(** Two namespaces that differ at most by the three attributes
    [_make_test_result] writes. *)
Definition same_args_but_result (a a' : Args) : Prop :=
  arg_unique_id a = arg_unique_id a' /\
  arg_log_level a = arg_log_level a' /\
  arg_multiplex_file a = arg_multiplex_file a' /\
  arg_url a = arg_url a' /\
  arg_keep_tmp_files a = arg_keep_tmp_files a' /\
  arg_test_runner a = arg_test_runner a' /\
  arg_test_result a = arg_test_result a'.

(** Two jobs that differ at most by their status and by the three
    attributes [_make_test_result] writes on [args]. *)
Definition same_job_frame (j j' : Job) : Prop :=
  unique_id j = unique_id j' /\ debugdir j = debugdir j' /\
  debuglog j = debuglog j' /\ loglevel j = loglevel j' /\
  multiplex_file j = multiplex_file j' /\ test_dir j = test_dir j' /\
  test_index j = test_index j' /\
  option_Forall2 same_args_but_result (args j) (args j').

(** The state the loop has reached when it has called [start_tests] and
    the tests of [rs] have run. *)
Definition after_tests (rs : list Ran) (s : State) : State :=
  mkState (set_job_status (job s) (job_status_after rs (status (job s))))
          (events s ++ [EvStartTests] ++ loop_trace rs).

(** The job is as it was but for its status and the attributes
    [_make_test_result] writes. *)
Definition job_frame_kept (s s' : State) : Prop :=
  same_job_frame (job s) (job s').

(** The calls of [check_test] in a log. *)
Fixpoint check_tests (evs : list Event) : nat :=
  match evs with
  | [] => 0
  | EvCheckTest _ :: evs' => S (check_tests evs')
  | _ :: evs' => check_tests evs'
  end.

(** ** A small world to run the model in *)

Module Sample.

(** The working directory is [/home/user]; it holds the script [check];
    the test root [/usr/share/avocado/tests] holds the test module
    [sleeptest], which defines the class [sleeptest], the module
    [failtest], the module [fataltest], whose test fails and writes
    [FAIL] on the job, the module [helper], which defines no class
    named [helper], the module [broken], whose import raises
    [SyntaxError], and the module [stopped], whose test is interrupted
    from the keyboard. *)
Definition abspath (p : string) : string :=
  if startswith_slash p then p else os_path_join "/home/user" p.

Definition exists_ (p : string) : bool :=
  bool_decide (p = "/home/user/check").

Definition find_module (name : string) (path : list string)
    : option FoundModule :=
  if bool_decide (path = [os_path_join "/usr/share/avocado/tests" name])
     && bool_decide (name ∈ ["sleeptest"; "failtest"; "fataltest"; "helper";
                           "broken"; "stopped"])
  then Some (mkFound (Some (name +:+ ".py"))
                     (os_path_join (os_path_join "/usr/share/avocado/tests" name)
                                   (name +:+ ".py"))
                     ".py")
  else None.

Definition load_module (name : string) (f : FoundModule)
    : Exc + gmap string ModuleAttr :=
  if bool_decide (name = "broken")
  then inl (mkExc (OtherException "SyntaxError") "invalid syntax" ["load_module"])
  else if bool_decide (name = "helper")
  then inr ({[ "setup" := AttrClass "setup" ]} : gmap string ModuleAttr)
  else inr ({[ name := AttrClass name ]} : gmap string ModuleAttr).

Definition run_test_class (t : TestInstance) : RunOutcome :=
  match ti_class t with
  | DropinTest => RunReturns (Some "PASS") None
  | MissingTest => RunReturns (Some "ERROR") None
  | ModuleTest c =>
      if bool_decide (c = "failtest") then RunReturns (Some "FAIL") None
      else if bool_decide (c = "fataltest")
      then RunReturns (Some "FAIL") (Some "FAIL")
      else if bool_decide (c = "stopped")
      then RunRaises (mkExc KeyboardInterrupt "" ["run_avocado"])
      else RunReturns (Some "PASS") None
  end.

Definition mapping (st : string) : option bool :=
  if bool_decide (st ∈ ["TEST_NA"; "PASS"; "START"]) then Some true
  else if bool_decide (st ∈ ["ABORT"; "ERROR"; "FAIL"; "WARN"; "ALERT";
                             "RUNNING"; "NOSTATUS"]) then Some false
  else None.

(** The multiplex file [/home/user/sleep.mplx] has two variants of
    [sleeptest] and none of any other test. *)
Definition variant (short : string) (len : string) : Params :=
  <[ "sleep_length" := len ]> (bare_params ("sleeptest." +:+ short)).

Definition variants (u : string) : list Params :=
  if bool_decide (u = "sleeptest")
  then [variant "short" "1"; variant "long" "5"]
  else [].

Definition get_dicts (file : string) (only : option string)
    : Result (list Params) :=
  if bool_decide (file = "/home/user/sleep.mplx") then
    match only with
    | Some u => Ok (variants u)
    | None => Ok (variants "sleeptest")
    end
  else Raise (mkExc (OtherException "IOError") "No such file or directory" ["Parser"]).

Definition format_exc (c : ExcClass) (msg : string) (tb : list string)
    : list string :=
  match tb with
  | [] => []
  | _ => "Traceback (most recent call last):" :: map (fun f => "  in " +:+ f) tb
  end ++ [class_name c +:+ ": " +:+ msg].

Definition no_plugin (n : string) (pl : list Params) (r : TestResult) (j : Job)
    : RunnerOutcome :=
  mkRunnerOutcome (Ok []) [] None.

(** The constructors of the classes of the test modules return. *)
Definition init_returns (cls name base_logdir : string) (params : Params)
    (job : string) : option Exc := None.

Definition env : Env :=
  mkEnv abspath exists_ find_module load_module
        (fun p => p) run_test_class mapping get_dicts format_exc
        "7e8a1f0c" (fun _ => "/home/user/avocado/logs/run-1")
        "/usr/share/avocado/tests" no_plugin init_returns.

(** A job made with no arguments, before anything has run. *)
Definition fresh : State := mkState (Job_init env None) [].

(** The default result collaborator of that job. *)
Definition human : TestResult := mkTestResult "HumanTestResult" None.

(** The instance made for the bare parameter set of [url]. *)
Definition instance (c : TestClass) (url : string) : TestInstance :=
  mkTest c url None "/home/user/avocado/logs/run-1" (Some (bare_params url))
         "7e8a1f0c" None.

(** A job made from a command line that names two tests and keeps no
    temporary file. *)
Definition cli_args : Args :=
  mkArgs None None None (Some "sleeptest failtest") false None None
         None None None.

Definition from_cli : State := mkState (Job_init env (Some cli_args)) [].

(** The three tests [sleeptest], [failtest] and [nothing], as they run. *)
Definition three_ran : list Ran :=
  [ mkRan (instance (ModuleTest "sleeptest") "sleeptest") "PASS" None true;
    mkRan (instance (ModuleTest "failtest") "failtest") "FAIL" None false;
    mkRan (instance MissingTest "nothing") "ERROR" None false ].

(** The same world where the test root holds [pkgtest] as a package:
    [imp.find_module] finds it and gives no open file. *)
Definition find_module_pkg (name : string) (path : list string)
    : option FoundModule :=
  if bool_decide (name = "pkgtest")
  then Some (mkFound None "/usr/share/avocado/tests/pkgtest/pkgtest" "")
  else find_module name path.

Definition env_pkg : Env :=
  mkEnv abspath exists_ find_module_pkg load_module
        (fun p => p) run_test_class mapping get_dicts format_exc
        "7e8a1f0c" (fun _ => "/home/user/avocado/logs/run-1")
        "/usr/share/avocado/tests" no_plugin init_returns.

(** The same world where [sleeptest] ends with a status that
    [status.mapping] does not have. *)
Definition run_test_class_odd (t : TestInstance) : RunOutcome :=
  match ti_class t with
  | ModuleTest c =>
      if bool_decide (c = "sleeptest") then RunReturns (Some "INTERRUPTED") None
      else run_test_class t
  | _ => run_test_class t
  end.

Definition env_odd : Env :=
  mkEnv abspath exists_ find_module load_module
        (fun p => p) run_test_class_odd mapping get_dicts format_exc
        "7e8a1f0c" (fun _ => "/home/user/avocado/logs/run-1")
        "/usr/share/avocado/tests" no_plugin init_returns.

(** The same world where the multiplex file has a second variant with
    no [shortname]. *)
Definition nameless : Params := {[ "sleep_length" := "5" ]}.

Definition get_dicts_nameless (file : string) (only : option string)
    : Result (list Params) :=
  Ok [variant "short" "1"; nameless].

Definition env_nameless : Env :=
  mkEnv abspath exists_ find_module load_module
        (fun p => p) run_test_class mapping get_dicts_nameless format_exc
        "7e8a1f0c" (fun _ => "/home/user/avocado/logs/run-1")
        "/usr/share/avocado/tests" no_plugin init_returns.

(** The instance of [sleeptest] made for the variant [short], as it
    runs. *)
Definition short_ran : Ran :=
  mkRan (mkTest (ModuleTest "sleeptest") "sleeptest" None
                "/home/user/avocado/logs/run-1" (Some (variant "short" "1"))
                "7e8a1f0c" None)
        "PASS" None true.

(** A job made from a command line that plugs in the runner [remote]. *)
Definition plugin_args : Args :=
  mkArgs None None None (Some "sleeptest") true (Some "remote") None
         None None None.

Definition from_plugin : State := mkState (Job_init env (Some plugin_args)) [].

(** The same world where the test root also holds the module
    [version], which has the string [version] and no class of that
    name, and the module [strict], whose class [strict] takes only
    parameter sets that have [sleep_length]. *)
Definition find_module_strict (name : string) (path : list string)
    : option FoundModule :=
  if bool_decide (path = [os_path_join "/usr/share/avocado/tests" name])
     && bool_decide (name ∈ ["version"; "strict"])
  then Some (mkFound (Some (name +:+ ".py"))
                     (os_path_join (os_path_join "/usr/share/avocado/tests" name)
                                   (name +:+ ".py"))
                     ".py")
  else find_module name path.

Definition load_module_strict (name : string) (f : FoundModule)
    : Exc + gmap string ModuleAttr :=
  if bool_decide (name = "version")
  then inr ({[ "version" := AttrObject "str" ]} : gmap string ModuleAttr)
  else load_module name f.

Definition init_strict (cls name base_logdir : string) (params : Params)
    (job : string) : option Exc :=
  if bool_decide (cls = "strict")
     && bool_decide (params !! "sleep_length" = None)
  then Some (mkExc KeyError "'sleep_length'" ["__init__"])
  else None.

Definition env_strict : Env :=
  mkEnv abspath exists_ find_module_strict load_module_strict
        (fun p => p) run_test_class mapping get_dicts format_exc
        "7e8a1f0c" (fun _ => "/home/user/avocado/logs/run-1")
        "/usr/share/avocado/tests" no_plugin init_strict.

(** The same world where the run of [fataltest] finds no room left for
    its logs and raises the job-level failure [JobError]. *)
Definition run_test_class_abort (t : TestInstance) : RunOutcome :=
  match ti_class t with
  | ModuleTest c =>
      if bool_decide (c = "fataltest")
      then RunRaises (mkExc (JobBaseException "JobError" "ERROR")
                            "no space left for the logs" ["run_avocado"])
      else run_test_class t
  | _ => run_test_class t
  end.

Definition env_abort : Env :=
  mkEnv abspath exists_ find_module load_module
        (fun p => p) run_test_class_abort mapping get_dicts format_exc
        "7e8a1f0c" (fun _ => "/home/user/avocado/logs/run-1")
        "/usr/share/avocado/tests" no_plugin init_returns.

(** A small interpreter: the module [sleeptest] holds a function, the
    class [sleeptest], which derives from [test.Test], and another
    class, which does not; the module [tools] holds functions only; no
    other module can be imported. *)
Inductive obj :=
  | ModSleeptest
  | ModTools
  | ClassSleeptest
  | ClassOther
  | Function.

Definition python : Python obj :=
  mkPython obj
    (fun name =>
       if bool_decide (name = "sleeptest") then inr ModSleeptest
       else if bool_decide (name = "tools") then inr ModTools
       else inl (mkExc ImportError ("No module named " +:+ name) ["__import__"]))
    (fun o name => inl (mkExc AttributeError name ["getattr"]))
    (fun o =>
       match o with
       | ModSleeptest =>
           inr [("main", Function); ("sleeptest", ClassSleeptest);
                ("Clock", ClassOther)]
       | ModTools => inr [("main", Function)]
       | _ => inr []
       end)
    (fun o =>
       match o with
       | ClassSleeptest => Some true
       | ClassOther => Some false
       | _ => None
       end).

End Sample.

(** ** The identifier prefix *)

Lemma string_app_cons (a : string) (c : ascii) (b : string) :
  (a +:+ String c "") +:+ b = a +:+ String c b.
Proof.
  induction a as [|x a IH]; [reflexivity|].
  change (String x ((a +:+ String c "") +:+ b) = String x (a +:+ String c b)).
  by rewrite IH.
Qed.

Lemma string_app_empty_r (a : string) : a +:+ "" = a.
Proof.
  induction a as [|x a IH]; [reflexivity|].
  change (String x (a +:+ "") = String x a). by rewrite IH.
Qed.

Lemma split_char_go_first (cur s : string) :
  split_char_go "." cur s !! 0%nat = Some (cur +:+ identifier_prefix s).
Proof.
  revert cur. induction s as [|c s IH]; intros cur; simpl.
  - by rewrite string_app_empty_r.
  - destruct (decide (c = "."%char)); simpl.
    + by rewrite string_app_empty_r.
    + rewrite IH. by rewrite string_app_cons.
Qed.

(** [shortname.split('.')[0]] is the identifier prefix. *)
Lemma str_split_first (s : string) :
  str_split "." s !! 0%nat = Some (identifier_prefix s).
Proof. unfold str_split. by rewrite split_char_go_first. Qed.

(** ** Reasoning on computations *)

Section Preserves.

Context (P : State -> State -> Prop) `{!PreOrder P}.

Lemma preserves_ret {A} (a : A) : preserves P (ret a).
Proof. intros s. simpl. reflexivity. Qed.

Lemma preserves_raise {A} (c : ExcClass) (msg : string) :
  preserves P (@raise A c msg).
Proof. intros s. simpl. reflexivity. Qed.

Lemma preserves_lift {A} (r : Result A) : preserves P (lift r).
Proof. intros s. simpl. reflexivity. Qed.

Lemma preserves_get_self : preserves P get_self.
Proof. intros s. simpl. reflexivity. Qed.

(** The continuation is only run on what the first part returned. *)
Lemma preserves_bind_ok {A B} (m : M A) (k : A -> M B) :
  preserves P m ->
  (forall s a s', m s = (Ok a, s') -> P s' (k a s').2) ->
  preserves P (bind m k).
Proof.
  intros Hm Hk s. unfold bind. specialize (Hm s).
  destruct (m s) as [[a|e] s'] eqn:Hms; simpl in *; [|done].
  etransitivity; [exact Hm|]. by eapply Hk.
Qed.

Lemma preserves_bind {A B} (m : M A) (k : A -> M B) :
  preserves P m -> (forall a, preserves P (k a)) -> preserves P (bind m k).
Proof.
  intros Hm Hk. apply preserves_bind_ok; [done|].
  intros s a s' _. apply Hk.
Qed.

Lemma preserves_in_frame {A} (f : string) (m : M A) :
  preserves P m -> preserves P (in_frame f m).
Proof.
  intros Hm s. unfold in_frame. specialize (Hm s).
  by destruct (m s) as [[a|e] s'].
Qed.

Lemma preserves_handle {A} (clauses : list ((ExcClass -> bool) * (Exc -> M A)))
    (e : Exc) :
  Forall (fun c => forall e', preserves P (c.2 e')) clauses ->
  preserves P (handle clauses e).
Proof.
  induction 1 as [|[catches h] clauses Hh _ IH]; simpl.
  - intros s. simpl. reflexivity.
  - destruct (catches (exc_class e)); [apply Hh | apply IH].
Qed.

Lemma preserves_try_except {A} (m : M A)
    (clauses : list ((ExcClass -> bool) * (Exc -> M A))) :
  preserves P m ->
  Forall (fun c => forall e', preserves P (c.2 e')) clauses ->
  preserves P (try_except m clauses).
Proof.
  intros Hm Hc s. unfold try_except. specialize (Hm s).
  destruct (m s) as [[a|e] s']; simpl in *; [done|].
  etransitivity; [exact Hm|]. by apply preserves_handle.
Qed.

Lemma preserves_try_finally {A B} (m : M A) (fin : option A -> M B) :
  preserves P m -> (forall o, preserves P (fin o)) ->
  preserves P (try_finally m fin).
Proof.
  intros Hm Hf s. unfold try_finally. specialize (Hm s).
  destruct (m s) as [[a|e] s']; simpl in *.
  - etransitivity; [exact Hm|]. apply Hf.
  - specialize (Hf None s').
    destruct (fin None s') as [[b|e'] s'']; simpl in *;
      (etransitivity; [exact Hm|exact Hf]).
Qed.

Lemma preserves_for_each {A B} (body : B -> A -> M B) (l : list A) :
  (forall acc x, preserves P (body acc x)) ->
  forall acc, preserves P (for_each body l acc).
Proof.
  intros Hbody. induction l as [|x l IH]; intros acc; simpl.
  - apply preserves_ret.
  - apply preserves_bind; [apply Hbody | apply IH].
Qed.

End Preserves.

Create HintDb preserves.

(** One step down the structure of a computation, for the relation [P]:
    a call already dealt with is looked up in the hint database, the
    constructs of the monad are taken apart. *)
Ltac preserves_step P :=
  first
    [ solve [auto 2 with preserves nocore]
    | progress cbv zeta
    | apply (preserves_ret P)
    | apply (preserves_raise P)
    | apply (preserves_lift P)
    | apply (preserves_get_self P)
    | apply (preserves_in_frame P)
    | apply (preserves_try_finally P); [|intros ?]
    | apply (preserves_try_except P); [|repeat constructor; intros ?]
    | apply (preserves_for_each P); intros ? ?
    | apply (preserves_bind P); [|intros ?]
    | match goal with
      | |- preserves _ (match ?x with _ => _ end) => destruct x
      end ].

Ltac preserves_auto P := repeat (preserves_step P).

Lemma stateless_ret {A} (a : A) : stateless (ret a).
Proof. by exists (Ok a). Qed.

Lemma stateless_lift {A} (r : Result A) : stateless (lift r).
Proof. by exists r. Qed.

Lemma stateless_bind {A B} (m : M A) (k : A -> M B) :
  stateless m -> (forall a, stateless (k a)) -> stateless (bind m k).
Proof.
  intros [r Hr] Hk. destruct r as [a|e].
  - destruct (Hk a) as [r' Hr']. exists r'. intros s. unfold bind.
    by rewrite Hr, Hr'.
  - exists (Raise e). intros s. unfold bind. by rewrite Hr.
Qed.

Lemma stateless_for_each {A B} (body : B -> A -> M B) (l : list A) :
  (forall acc x, stateless (body acc x)) ->
  forall acc, stateless (for_each body l acc).
Proof.
  intros Hbody. induction l as [|x l IH]; intros acc; simpl.
  - apply stateless_ret.
  - apply stateless_bind; [apply Hbody | apply IH].
Qed.

(** The result of a stateless computation is the same in every state. *)
Lemma stateless_result {A} (m : M A) (s s' : State) :
  stateless m -> m s = ((m s').1, s).
Proof. intros [r Hr]. by rewrite (Hr s), (Hr s'). Qed.

#[local] Instance quiet_preorder : PreOrder quiet.
Proof.
  split.
  - intros s. by repeat split.
  - intros s1 s2 s3 (?&?&?) (?&?&?). repeat split; congruence.
Qed.

(** ** The resolver *)

Section Resolver.

Context (E : Env).

(** The resolver never changes the state. *)
Lemma load_test_instance_unchanged (params : Params) :
  preserves eq (_load_test_instance E params).
Proof.
  unfold _load_test_instance, call_test_class.
  preserves_auto (@eq State).
Qed.

Lemma load_test_instance_state (params : Params) (s : State) :
  (_load_test_instance E params s).2 = s.
Proof. symmetry. apply load_test_instance_unchanged. Qed.

(** C7.  When the identifier prefix of a parameter set, made absolute,
    exists on the filesystem, the resolver returns an instance of
    [DropinTest] made from that path, the log directory of the job and
    the job, with no parameter set attached; the module finder and the
    module loader are not consulted, so a test module of the same name
    changes nothing. *)
Theorem load_existing_path_is_dropin (params : Params) (shortname : string)
    (s : State) :
  params !! "shortname" = Some shortname ->
  os_path_exists E (os_path_abspath E (identifier_prefix shortname)) = true ->
  let path := os_path_abspath E (identifier_prefix shortname) in
  _load_test_instance E params s =
    (Ok (mkTest DropinTest (dropin_name E path) (Some path)
                (debugdir (job s)) None (unique_id (job s)) None), s).
Proof.
  intros Hshort Hexists path. subst path.
  unfold _load_test_instance, in_frame, bind, get_self, ret.
  rewrite Hshort. simpl. rewrite str_split_first. simpl.
  rewrite Hexists. reflexivity.
Qed.

(** Discovery that fails with [ImportError] because no module is found
    gives an instance of [MissingTest] named after the prefix, with the
    log directory of the job, the whole parameter set and the job. *)
Lemma load_module_not_found_is_missing (params : Params) (shortname : string)
    (s : State) :
  params !! "shortname" = Some shortname ->
  let url := identifier_prefix shortname in
  os_path_exists E (os_path_abspath E url) = false ->
  imp_find_module E url [os_path_join (test_dir (job s)) url] = None ->
  _load_test_instance E params s =
    (Ok (mkTest MissingTest url None (debugdir (job s)) (Some params)
                (unique_id (job s)) None), s).
Proof.
  intros Hshort url Hexists Hfind. subst url.
  unfold _load_test_instance, in_frame, bind, get_self, ret, try_finally,
    try_except, raise.
  rewrite Hshort. simpl. rewrite str_split_first. simpl.
  rewrite Hexists, Hfind. reflexivity.
Qed.

(** The same when the import of the module raises [ImportError]. *)
Lemma load_import_error_is_missing (params : Params) (shortname : string)
    (s : State) (fpd : FoundModule) (e : Exc) :
  params !! "shortname" = Some shortname ->
  let url := identifier_prefix shortname in
  os_path_exists E (os_path_abspath E url) = false ->
  imp_find_module E url [os_path_join (test_dir (job s)) url] = Some fpd ->
  imp_load_module E url fpd = inl e ->
  exc_class e = ImportError ->
  _load_test_instance E params s =
    (Ok (mkTest MissingTest url None (debugdir (job s)) (Some params)
                (unique_id (job s)) None), s).
Proof.
  intros Hshort url Hexists Hfind Hload Hcls. subst url.
  unfold _load_test_instance, in_frame, bind, get_self, ret, try_finally,
    try_except, raise, lift.
  rewrite Hshort. simpl. rewrite str_split_first. simpl.
  rewrite Hexists, Hfind. simpl. rewrite Hload. simpl.
  rewrite Hcls. reflexivity.
Qed.

(** A module that is found and imported and has a class under the
    name, whose constructor returns, gives an instance of that class. *)
Lemma load_discovered (params : Params) (shortname : string)
    (s : State) (fpd : FoundModule) (f : string) (m : gmap string ModuleAttr)
    (cls : string) :
  params !! "shortname" = Some shortname ->
  let url := identifier_prefix shortname in
  os_path_exists E (os_path_abspath E url) = false ->
  imp_find_module E url [os_path_join (test_dir (job s)) url] = Some fpd ->
  imp_load_module E url fpd = inr m ->
  fm_file fpd = Some f ->
  m !! url = Some (AttrClass cls) ->
  test_init E cls url (debugdir (job s)) params (unique_id (job s)) = None ->
  _load_test_instance E params s =
    (Ok (mkTest (ModuleTest cls) url None (debugdir (job s)) (Some params)
                (unique_id (job s)) None), s).
Proof.
  intros Hshort url Hexists Hfind Hload Hfile Hattr Hinit. subst url.
  unfold _load_test_instance, in_frame, bind, get_self, ret, try_finally,
    try_except, raise, lift.
  rewrite Hshort. simpl. rewrite str_split_first. simpl.
  rewrite Hexists, Hfind. simpl. rewrite Hload. simpl.
  rewrite Hfile. simpl. rewrite Hattr. simpl. rewrite Hinit. reflexivity.
Qed.

(** C1.  A module that is found and imported but has no attribute named
    after the prefix: [getattr] raises [AttributeError], no clause of
    the [try] statement handles it, and the [finally] part calls
    [test_class], which was never assigned.  The resolver raises
    [UnboundLocalError] where a [MissingTest] instance was to be
    returned. *)
Theorem load_missing_attribute_raises (params : Params) (shortname : string)
    (s : State) (fpd : FoundModule) (f : string) (m : gmap string ModuleAttr) :
  params !! "shortname" = Some shortname ->
  let url := identifier_prefix shortname in
  os_path_exists E (os_path_abspath E url) = false ->
  imp_find_module E url [os_path_join (test_dir (job s)) url] = Some fpd ->
  imp_load_module E url fpd = inr m ->
  fm_file fpd = Some f ->
  m !! url = None ->
  _load_test_instance E params s =
    (Raise (mkExc UnboundLocalError
                  "local variable 'test_class' referenced before assignment"
                  ["_load_test_instance"]), s).
Proof.
  intros Hshort url Hexists Hfind Hload Hfile Hattr. subst url.
  unfold _load_test_instance, in_frame, bind, get_self, ret, try_finally,
    try_except, raise, lift.
  rewrite Hshort. simpl. rewrite str_split_first. simpl.
  rewrite Hexists, Hfind. simpl. rewrite Hload. simpl.
  rewrite Hfile. simpl. rewrite Hattr. reflexivity.
Qed.

End Resolver.

Lemma load_existing_path_is_dropin_witness :
  _load_test_instance Sample.env (bare_params "check.sh") Sample.fresh =
    (Ok (mkTest DropinTest "/home/user/check" (Some "/home/user/check")
                "/home/user/avocado/logs/run-1" None "7e8a1f0c" None),
     Sample.fresh).
Proof.
  apply (load_existing_path_is_dropin Sample.env (bare_params "check.sh")
           "check.sh" Sample.fresh); reflexivity.
Defined.

Lemma load_missing_attribute_raises_witness :
  _load_test_instance Sample.env (bare_params "helper") Sample.fresh =
    (Raise (mkExc UnboundLocalError
                  "local variable 'test_class' referenced before assignment"
                  ["_load_test_instance"]), Sample.fresh).
Proof.
  apply (load_missing_attribute_raises Sample.env (bare_params "helper")
           "helper" Sample.fresh
           (mkFound (Some "helper.py")
                    "/usr/share/avocado/tests/helper/helper.py" ".py")
           "helper.py" {[ "setup" := AttrClass "setup" ]}); reflexivity.
Defined.

(** ** The parameter set builder *)

Section Builder.

Context (E : Env).

Lemma fold_left_append {A B} (f : A -> B) (l : list A) (acc : list B) :
  fold_left (fun pl x => pl ++ [f x]) l acc = acc ++ map f l.
Proof.
  revert acc. induction l as [|x l IH]; intros acc; simpl.
  - by rewrite app_nil_r.
  - rewrite IH. by rewrite <- app_assoc.
Qed.




End Builder.



(** ** The execution loop *)

Section Loop.

Context (E : Env).

(** The resolver reads the job and nothing else of the state. *)
Lemma load_test_instance_resolve (params : Params) (s : State) :
  _load_test_instance E params s = (resolve E (job s) params, s).
Proof.
  rewrite (surjective_pairing (_load_test_instance E params s)).
  rewrite load_test_instance_state. f_equal.
  unfold resolve, _load_test_instance, call_test_class, in_frame, bind,
    get_self, try_finally, try_except, ret, raise, lift.
  destruct (params !! "shortname") as [shortname|]; simpl; [|done].
  rewrite str_split_first. simpl.
  destruct (os_path_exists E _); simpl; [done|].
  destruct (imp_find_module E _ _) as [fpd|]; simpl; [|done].
  destruct (imp_load_module E _ fpd) as [e|m]; simpl.
  - unfold handle. destruct (is_ImportError _); done.
  - destruct (fm_file fpd); simpl; [|done].
    destruct (m !! _) as [[cls|ty]|]; simpl; [|done|done].
    destruct (test_init E _ _ _ _ _); done.
Qed.

Lemma resolve_same_identity (j j' : Job) (params : Params) :
  same_identity j j' -> resolve E j params = resolve E j' params.
Proof.
  intros (Hd & Ht & Hu).
  unfold resolve, _load_test_instance, call_test_class, in_frame, bind,
    get_self, try_finally, try_except, ret, raise, lift, new_test_by_path,
    new_test_by_name.
  destruct (params !! "shortname") as [shortname|]; simpl; [|done].
  rewrite str_split_first. simpl. rewrite Hd, Ht, Hu.
  destruct (os_path_exists E _); simpl; [done|].
  destruct (imp_find_module E _ _) as [fpd|]; simpl; [|done].
  destruct (imp_load_module E _ fpd) as [e|m]; simpl.
  - unfold handle. destruct (is_ImportError _); done.
  - destruct (fm_file fpd); simpl; [|done].
    destruct (m !! _) as [[cls|ty]|]; simpl; [|done|done].
    destruct (test_init E _ _ _ _ _); done.
Qed.

Lemma runs_as_same_identity (j j' : Job) (params : Params) (r : Ran) :
  same_identity j j' -> runs_as E j params r -> runs_as E j' params r.
Proof.
  intros Hid (Hres & Hrun & Hmap). split; [|done].
  by rewrite <- (resolve_same_identity j j' params Hid).
Qed.

Lemma set_job_status_same (j : Job) : set_job_status j (status j) = j.
Proof. by destruct j. Qed.

Lemma same_identity_refl (j : Job) : same_identity j j.
Proof. by repeat split. Qed.

Lemma same_identity_set_status (j : Job) (st : string) :
  same_identity j (set_job_status j st).
Proof. by repeat split. Qed.

Lemma same_identity_trans (j1 j2 j3 : Job) :
  same_identity j1 j2 -> same_identity j2 j3 -> same_identity j1 j3.
Proof. intros (?&?&?) (?&?&?). repeat split; congruence. Qed.

Lemma same_identity_sym (j1 j2 : Job) :
  same_identity j1 j2 -> same_identity j2 j1.
Proof. intros (?&?&?). by repeat split. Qed.

(** The state after [run_avocado] returned on the instance of [r]. *)
Lemma run_test_returns (params : Params) (r : Ran) (s : State) :
  runs_as E (job s) params r ->
  run_test E params s =
    (Ok (finished r),
     mkState (set_job_status (job s) (default (status (job s)) (ran_job_status r)))
             (events s ++ [EvRunAvocado (ran_test r)])).
Proof.
  intros (Hres & Hrun & _).
  unfold run_test, in_frame, bind. rewrite load_test_instance_resolve, Hres.
  unfold call_run_avocado, bind, emit. rewrite Hrun.
  destruct (ran_job_status r) as [v|]; simpl; [done|].
  by rewrite set_job_status_same.
Qed.

Lemma test_runner_body_returns (tr : TestResult) (failures : list string)
    (params : Params) (r : Ran) (s : State) :
  runs_as E (job s) params r ->
  test_runner_body E tr failures params s =
    (Ok (failures ++ failures_of [r]),
     mkState (set_job_status (job s) (job_status_after [r] (status (job s))))
             (events s ++ loop_trace [r])).
Proof.
  intros Hr. pose proof (run_test_returns params r s Hr) as Hrun.
  destruct Hr as (_ & _ & Hmap).
  unfold test_runner_body, bind. rewrite Hrun. unfold emit. simpl.
  unfold status_mapping_getitem. rewrite Hmap. unfold ret.
  unfold failures_of, loop_trace. simpl.
  destruct (ran_passed r); simpl; rewrite ?app_nil_r, <- ?app_assoc; done.
Qed.

Lemma failures_of_cons (r : Ran) (rs : list Ran) :
  failures_of (r :: rs) = failures_of [r] ++ failures_of rs.
Proof. unfold failures_of. simpl. by destruct (ran_passed r). Qed.

Lemma for_each_test_runner_body (tr : TestResult) (pl : list Params)
    (rs : list Ran) (j : Job) :
  Forall2 (runs_as E j) pl rs ->
  forall (failures : list string) (s : State),
    same_identity j (job s) ->
    for_each (test_runner_body E tr) pl failures s =
      (Ok (failures ++ failures_of rs),
       mkState (set_job_status (job s) (job_status_after rs (status (job s))))
               (events s ++ loop_trace rs)).
Proof.
  induction 1 as [|p r pl rs Hr Hall IH]; intros failures s Hid.
  - unfold failures_of, loop_trace. simpl.
    rewrite !app_nil_r, set_job_status_same. by destruct s.
  - apply (runs_as_same_identity j (job s)) in Hr; [|done].
    simpl. unfold bind at 1.
    rewrite (test_runner_body_returns tr failures p r s Hr).
    rewrite IH.
    + rewrite (failures_of_cons r rs), app_assoc. simpl.
      unfold loop_trace. simpl. by rewrite <- !app_assoc.
    + simpl. eapply same_identity_trans; [exact Hid|].
      apply same_identity_set_status.
Qed.

(** What the loop returns and the state it leaves when every test runs
    to its end. *)
Lemma test_runner_returns (params_list : list Params) (tr : TestResult)
    (rs : list Ran) (s : State) :
  Forall2 (runs_as E (job s)) params_list rs ->
  test_runner E params_list tr s =
    (Ok (failures_of rs),
     mkState (set_job_status (job s) (job_status_after rs (status (job s))))
             (events s ++ [EvStartTests] ++ loop_trace rs ++ [EvEndTests])).
Proof.
  intros Hall.
  unfold test_runner, in_frame, bind, emit. simpl.
  rewrite (for_each_test_runner_body tr params_list rs (job s) Hall);
    [|apply same_identity_refl].
  simpl. by rewrite <- !app_assoc.
Qed.

(** Conversely, a turn of the loop that returns ran its test to the
    end. *)
Lemma test_runner_body_inv (tr : TestResult) (failures failures' : list string)
    (params : Params) (s s' : State) :
  test_runner_body E tr failures params s = (Ok failures', s') ->
  exists r, runs_as E (job s) params r.
Proof.
  unfold test_runner_body, bind, run_test, in_frame, bind.
  rewrite load_test_instance_resolve.
  destruct (resolve E (job s) params) as [t|e] eqn:Hres; [|discriminate].
  unfold call_run_avocado, bind, emit.
  destruct (run_avocado E t) as [e|st js] eqn:Hrun; [discriminate|].
  assert (forall s0 : State,
            (let (r, s'0) := status_mapping_getitem E st s0 in
             match r with
             | Ok a => (if negb a then ret (failures ++ [ti_name (set_test_status t st)])
                        else ret failures) s'0
             | Raise e => (Raise e, s'0)
             end) = (Ok failures', s') ->
            exists r, runs_as E (job s) params r) as Hmapping.
  { intros s0. unfold status_mapping_getitem.
    destruct st as [v|]; [|discriminate].
    destruct (status_mapping E v) as [b|] eqn:Hmap; [|discriminate].
    intros _. by exists (mkRan t v js b). }
  destruct js as [v|]; simpl; apply Hmapping.
Qed.

Lemma for_each_test_runner_body_inv (tr : TestResult) (pl : list Params) :
  forall (failures failures' : list string) (s s' : State),
    for_each (test_runner_body E tr) pl failures s = (Ok failures', s') ->
    exists rs, Forall2 (runs_as E (job s)) pl rs.
Proof.
  induction pl as [|p pl IH]; intros failures failures' s s' Hloop.
  - exists []. constructor.
  - simpl in Hloop. unfold bind at 1 in Hloop.
    destruct (test_runner_body E tr failures p s) as [[acc|e] s1] eqn:Hbody;
      [|discriminate].
    destruct (test_runner_body_inv _ _ _ _ _ _ Hbody) as (r & Hr).
    rewrite (test_runner_body_returns tr failures p r s Hr) in Hbody.
    injection Hbody as <- <-.
    destruct (IH _ _ _ _ Hloop) as (rs & Hrs).
    exists (r :: rs). constructor; [done|].
    eapply Forall2_impl; [exact Hrs|].
    intros p' r'. apply runs_as_same_identity. simpl.
    apply same_identity_sym, same_identity_set_status.
Qed.

Lemma test_runner_inv (params_list : list Params) (tr : TestResult)
    (failures : list string) (s s' : State) :
  test_runner E params_list tr s = (Ok failures, s') ->
  exists rs, Forall2 (runs_as E (job s)) params_list rs.
Proof.
  unfold test_runner, in_frame, bind, emit. simpl.
  destruct (for_each _ _ _ _) as [[fs|e] s1] eqn:Hloop; [|discriminate].
  intros _. apply for_each_test_runner_body_inv in Hloop. exact Hloop.
Qed.

(** C6.  When every parameter set of the sequence resolves to an
    instance whose run returns with a status known to [status.mapping],
    the loop returns the names of the instances whose status maps to
    not passing, in order, and what it did is: [start_tests], then for
    each parameter set in order the run of its instance followed by
    [check_test] on the finished instance, then [end_tests].  A test
    that does not pass changes nothing to what follows it. *)
Theorem test_runner_protocol (params_list : list Params) (tr : TestResult)
    (rs : list Ran) (s : State) :
  Forall2 (runs_as E (job s)) params_list rs ->
  exists s',
    test_runner E params_list tr s = (Ok (failures_of rs), s') /\
    events s' =
      events s ++ [EvStartTests] ++ loop_trace rs ++ [EvEndTests].
Proof.
  intros Hall. rewrite (test_runner_returns params_list tr rs s Hall).
  eexists. split; reflexivity.
Qed.

End Loop.

Lemma test_runner_protocol_witness :
  exists s',
    test_runner Sample.env
      [bare_params "sleeptest"; bare_params "failtest"; bare_params "nothing"]
      Sample.human Sample.fresh = (Ok ["failtest"; "nothing"], s') /\
    events s' =
      [EvStartTests] ++ loop_trace Sample.three_ran ++ [EvEndTests].
Proof.
  apply (test_runner_protocol Sample.env
           [bare_params "sleeptest"; bare_params "failtest"; bare_params "nothing"]
           Sample.human Sample.three_ran Sample.fresh).
  repeat constructor.
Defined.

(** ** The controller *)

Section Controller.

Context (E : Env).

Lemma run_multiplex_stateless (urls : option (list string))
    (mf : option string) (params_list : list Params) :
  stateless (_run_multiplex E urls mf params_list).
Proof.
  unfold _run_multiplex. destruct mf as [f|]; [|apply stateless_ret].
  destruct urls as [us|].
  - apply stateless_for_each. intros acc u. unfold _run_multiplex_body.
    apply stateless_bind; [apply stateless_lift|].
    intros [|d dcts]; apply stateless_ret.
  - apply stateless_bind; [apply stateless_lift|].
    intros dcts. apply stateless_ret.
Qed.

(** The builder leaves the state as it is. *)
Lemma run_params_list_state (urls : option Urls) (mf : option string)
    (s : State) :
  (_run_params_list E urls mf s).2 = s.
Proof.
  unfold _run_params_list, bind, get_self.
  destruct (run_multiplex_stateless (_run_urls (job s) urls)
              (_run_multiplex_file E (job s) mf)
              (_run_bare_list (_run_urls (job s) urls) [])) as [r Hr].
  by rewrite Hr.
Qed.

Lemma run_urls_same_config (j j' : Job) (urls : option Urls) :
  same_config j j' -> _run_urls j urls = _run_urls j' urls.
Proof.
  intros (_ & Hurl & _). unfold _run_urls.
  destruct urls as [[u|l]|]; [done..|].
  destruct (args j), (args j'); simpl in Hurl; [|done..].
  by injection Hurl as ->.
Qed.

Lemma run_multiplex_file_same_config (j j' : Job) (mf : option string) :
  same_config j j' -> _run_multiplex_file E j mf = _run_multiplex_file E j' mf.
Proof.
  intros (_ & _ & Hmux & _). unfold _run_multiplex_file.
  destruct mf as [f|]; [done|].
  destruct (args j), (args j'); simpl in Hmux; [|done..].
  by injection Hmux as ->.
Qed.

(** The parameter sets depend on the job through its configuration
    only. *)
Lemma run_params_list_same_config (urls : option Urls) (mf : option string)
    (s s' : State) :
  same_config (job s) (job s') ->
  _run_params_list E urls mf s' = ((_run_params_list E urls mf s).1, s').
Proof.
  intros Hcfg. unfold _run_params_list, bind, get_self.
  rewrite <- (run_urls_same_config _ _ urls Hcfg).
  rewrite <- (run_multiplex_file_same_config _ _ mf Hcfg).
  apply stateless_result, run_multiplex_stateless.
Qed.

(** What [_make_test_result] returns and leaves. *)
Lemma make_test_result_returns (pl : list Params) (s : State) :
  exists tr s1,
    _make_test_result pl s = (Ok tr, s1) /\
    events s1 = events s ++ [EvTestResult tr] /\
    status (job s1) = status (job s) /\
    same_config (job s) (job s1) /\
    (args (job s) = None -> args (job s1) = None) /\
    arg_keep_tmp_files <$> args (job s1) = arg_keep_tmp_files <$> args (job s).
Proof.
  unfold _make_test_result, in_frame, bind, get_self, set_args, emit, ret.
  destruct (args (job s)) as [a|] eqn:Hargs; simpl.
  - eexists _, _. split; [reflexivity|]. simpl.
    unfold same_config, same_identity. simpl. rewrite Hargs. simpl. done.
  - eexists _, _. split; [reflexivity|]. simpl.
    unfold same_config, same_identity. rewrite Hargs. simpl. done.
Qed.

Lemma make_test_runner_default (s : State) :
  default_runner (job s) -> _make_test_runner E s = (Ok (test_runner E), s).
Proof.
  intros Hdef. unfold _make_test_runner, in_frame, bind, get_self, ret.
  destruct (args (job s)) as [a|] eqn:Hargs; [|done].
  by rewrite (Hdef a Hargs).
Qed.

Lemma default_runner_same_config (j j' : Job) :
  same_config j j' -> default_runner j -> default_runner j'.
Proof.
  intros (_ & _ & _ & Hrun) Hdef a' Ha'. rewrite Ha' in Hrun.
  destruct (args j) as [a|] eqn:Ha; simpl in Hrun; [|done].
  injection Hrun as Hrun. rewrite <- Hrun. by apply Hdef.
Qed.

Lemma same_config_trans (j1 j2 j3 : Job) :
  same_config j1 j2 -> same_config j2 j3 -> same_config j1 j3.
Proof.
  intros (Hi & ? & ? & ?) (Hi' & ? & ? & ?).
  split; [by eapply same_identity_trans|]. repeat split; congruence.
Qed.

Lemma same_config_sym (j1 j2 : Job) : same_config j1 j2 -> same_config j2 j1.
Proof.
  intros (Hi & ? & ? & ?). split; [by apply same_identity_sym|]. done.
Qed.

Lemma same_config_set_status (j : Job) (st : string) :
  same_config j (set_job_status j st).
Proof. by repeat split. Qed.

(** What the end of [_run] returns and leaves. *)
Lemma run_finish_returns (failures : list string) (s : State) :
  _run_finish failures s =
    (Ok (exit_status_of failures),
     mkState (set_job_status (job s)
                (if decide (status (job s) = "RUNNING") then "PASS"
                 else status (job s)))
             (events s ++
                match args (job s) with
                | Some a => if arg_keep_tmp_files a then [] else [EvCleanTmpFiles]
                | None => []
                end)).
Proof.
  unfold _run_finish, bind, get_self, set_status, emit, ret, exit_status_of.
  destruct s as [j evs]. simpl.
  destruct (decide (status j = "RUNNING")) as [Hrun|Hrun]; simpl.
  - destruct (args j) as [a|]; simpl.
    + destruct (arg_keep_tmp_files a); simpl; rewrite ?app_nil_r;
        destruct failures; reflexivity.
    + rewrite app_nil_r. destruct failures; reflexivity.
  - rewrite set_job_status_same.
    destruct (args j) as [a|]; simpl.
    + destruct (arg_keep_tmp_files a); simpl; rewrite ?app_nil_r;
        destruct failures; reflexivity.
    + rewrite app_nil_r. destruct failures; reflexivity.
Qed.

(** A run that returns went through the loop and the end of [_run]. *)
Lemma run_inv (urls : option Urls) (mf : option string) (s s' : State)
    (c : ExitStatus) :
  _run E urls mf s = (Ok c, s') ->
  exists failures s1,
    _run_loop E urls mf s = (Ok failures, s1) /\
    _run_finish failures s1 = (Ok c, s').
Proof.
  unfold _run, in_frame, bind.
  destruct (_run_loop E urls mf s) as [[failures|e] s1]; [|discriminate].
  destruct (_run_finish failures s1) as [[c'|e] s2] eqn:Hfin; [|discriminate].
  intros [= <- <-]. by exists failures, s1.
Qed.

Lemma run_returns (urls : option Urls) (mf : option string) (s s1 : State)
    (failures : list string) :
  _run_loop E urls mf s = (Ok failures, s1) ->
  _run E urls mf s = _run_finish failures s1.
Proof.
  intros Hloop. unfold _run, in_frame, bind. rewrite Hloop.
  by rewrite run_finish_returns.
Qed.

Lemma run_raises (urls : option Urls) (mf : option string) (s s1 : State)
    (e : Exc) :
  _run_loop E urls mf s = (Raise e, s1) ->
  _run E urls mf s =
    (Raise (mkExc (exc_class e) (exc_msg e) ("_run" :: exc_tb e)), s1).
Proof. intros Hloop. unfold _run, in_frame, bind. by rewrite Hloop. Qed.

(** With the default runner, a loop that returns ran every test to its
    end. *)
Lemma run_loop_default_inv (urls : option Urls) (mf : option string)
    (s s1 : State) (failures : list string) :
  default_runner (job s) ->
  _run_loop E urls mf s = (Ok failures, s1) ->
  exists pl rs,
    _run_params_list E urls mf s = (Ok pl, s) /\
    Forall2 (runs_as E (job s)) pl rs /\
    failures = failures_of rs.
Proof.
  intros Hdef. unfold _run_loop, bind.
  pose proof (run_params_list_state urls mf s) as Hstate.
  destruct (_run_params_list E urls mf s) as [[pl|e] s0]; [|discriminate].
  simpl in Hstate. subst s0.
  destruct (make_test_result_returns pl s)
    as (tr & sa & Hmk & _ & _ & Hcfg & _).
  rewrite Hmk.
  rewrite make_test_runner_default
    by (by apply (default_runner_same_config (job s))).
  intros Hrun. destruct (test_runner_inv E _ _ _ _ _ Hrun) as [rs Hrs].
  rewrite (test_runner_returns E pl tr rs sa Hrs) in Hrun.
  injection Hrun as <- _.
  exists pl, rs. split; [done|]. split; [|done].
  eapply Forall2_impl; [exact Hrs|].
  intros p r. apply runs_as_same_identity.
  apply same_identity_sym. by destruct Hcfg.
Qed.

(** With the default runner, what the loop returns and leaves when
    every test runs to its end. *)
Lemma run_loop_default_returns (urls : option Urls) (mf : option string)
    (s : State) (pl : list Params) (rs : list Ran) :
  default_runner (job s) ->
  _run_params_list E urls mf s = (Ok pl, s) ->
  Forall2 (runs_as E (job s)) pl rs ->
  exists tr s1,
    _run_loop E urls mf s = (Ok (failures_of rs), s1) /\
    events s1 =
      events s ++ [EvTestResult tr; EvStartTests] ++ loop_trace rs
        ++ [EvEndTests] /\
    status (job s1) = job_status_after rs (status (job s)) /\
    same_config (job s) (job s1) /\
    arg_keep_tmp_files <$> args (job s1) = arg_keep_tmp_files <$> args (job s).
Proof.
  intros Hdef Hpl Hrs. unfold _run_loop, bind. rewrite Hpl.
  destruct (make_test_result_returns pl s)
    as (tr & sa & Hmk & Hev & Hst & Hcfg & _ & Hkeep).
  rewrite Hmk.
  rewrite make_test_runner_default
    by (by apply (default_runner_same_config (job s))).
  assert (Forall2 (runs_as E (job sa)) pl rs) as Hrs'.
  { eapply Forall2_impl; [exact Hrs|].
    intros p r. apply runs_as_same_identity. by destruct Hcfg. }
  rewrite (test_runner_returns E pl tr rs sa Hrs').
  exists tr. eexists. split; [reflexivity|]. simpl.
  split; [by rewrite Hev, <- !app_assoc|].
  split; [by rewrite Hst|].
  split; [|done].
  eapply same_config_trans; [exact Hcfg|]. apply same_config_set_status.
Qed.

(** C8.  In a run that returns, the status the job has when the loop
    returns decides: if it is [RUNNING] the job ends with [PASS], and
    if it is anything else the job ends with that status, unchanged. *)
Theorem run_sets_pass_only_when_running (urls : option Urls)
    (mf : option string) (s s' : State) (c : ExitStatus) :
  _run E urls mf s = (Ok c, s') ->
  exists failures s1,
    _run_loop E urls mf s = (Ok failures, s1) /\
    (status (job s1) = "RUNNING" -> status (job s') = "PASS") /\
    (status (job s1) <> "RUNNING" -> status (job s') = status (job s1)).
Proof.
  intros Hrun. destruct (run_inv urls mf s s' c Hrun) as (failures & s1 & Hloop & Hfin).
  exists failures, s1. split; [done|].
  rewrite run_finish_returns in Hfin. injection Hfin as _ <-. simpl.
  destruct (decide (status (job s1) = "RUNNING")); split; done.
Qed.

(** C3.  In a run that returns, the exit status is [AVOCADO_ALL_OK]
    when the list of failures the loop returned is empty and
    [AVOCADO_TESTS_FAIL] when it is not.  It depends on nothing else:
    any other run whose loop returns the same failures has the same
    exit status; with the default runner, a run on any job of the same
    configuration, whatever its status and its log, returns the same
    exit status, and the job this run leaves is such a job. *)
Theorem run_exit_status (urls : option Urls) (mf : option string)
    (s s' : State) (c : ExitStatus) :
  _run E urls mf s = (Ok c, s') ->
  exists failures s1,
    _run_loop E urls mf s = (Ok failures, s1) /\
    (c = AVOCADO_ALL_OK <-> failures = []) /\
    (c = AVOCADO_TESTS_FAIL <-> failures <> []) /\
    (forall t t1 t' c2,
       _run_loop E urls mf t = (Ok failures, t1) ->
       _run E urls mf t = (Ok c2, t') -> c2 = c) /\
    (default_runner (job s) ->
       (forall t, same_config (job s) (job t) ->
          exists t', _run E urls mf t = (Ok c, t')) /\
       same_config (job s) (job s')).
Proof.
  intros Hrun. destruct (run_inv urls mf s s' c Hrun) as (failures & s1 & Hloop & Hfin).
  exists failures, s1. split; [done|].
  rewrite run_finish_returns in Hfin. injection Hfin as <- <-.
  split; [|split; [|split]].
  - destruct failures; simpl; split; done.
  - destruct failures; simpl; split; done.
  - intros t t1 t' c2 Hloop2 Hrun2.
    rewrite (run_returns urls mf t t1 failures Hloop2) in Hrun2.
    rewrite run_finish_returns in Hrun2. by injection Hrun2 as <- _.
  - intros Hdef.
    destruct (run_loop_default_inv urls mf s s1 failures Hdef Hloop)
      as (pl & rs & Hpl & Hrs & ->).
    split.
    + intros t Hcfg.
      assert (_run_params_list E urls mf t = (Ok pl, t)) as Hpl2.
      { rewrite (run_params_list_same_config urls mf s t Hcfg).
        by rewrite Hpl. }
      assert (Forall2 (runs_as E (job t)) pl rs) as Hrs2.
      { eapply Forall2_impl; [exact Hrs|].
        intros p r. apply runs_as_same_identity. by destruct Hcfg. }
      destruct (run_loop_default_returns urls mf t pl rs
                  (default_runner_same_config _ _ Hcfg Hdef) Hpl2 Hrs2)
        as (tr & t1 & Hloop2 & _).
      rewrite (run_returns urls mf t t1 _ Hloop2), run_finish_returns.
      by eexists.
    + destruct (run_loop_default_returns urls mf s pl rs Hdef Hpl Hrs)
        as (tr & s1' & Hloop' & _ & _ & Hcfg & _).
      rewrite Hloop in Hloop'. injection Hloop' as <-.
      simpl. eapply same_config_trans; [exact Hcfg|].
      apply same_config_set_status.
Qed.

Lemma cleanups_app (evs evs' : list Event) :
  cleanups (evs ++ evs') = cleanups evs + cleanups evs'.
Proof.
  induction evs as [|ev evs IH]; [done|].
  destruct ev; simpl; by rewrite ?IH.
Qed.

Lemma quiet_emit (ev : Event) :
  ev <> EvCleanTmpFiles -> preserves quiet (emit ev).
Proof.
  intros Hev s. unfold quiet. simpl. rewrite cleanups_app.
  destruct ev; simpl; (done || lia).
Qed.

Lemma quiet_set_status (st : string) : preserves quiet (set_status st).
Proof. intros s. by repeat split. Qed.

Lemma quiet_load_test_instance (params : Params) :
  preserves quiet (_load_test_instance E params).
Proof. intros s. rewrite load_test_instance_state. reflexivity. Qed.

#[local] Hint Resolve quiet_set_status quiet_load_test_instance : preserves.
#[local] Hint Extern 1 (preserves quiet (emit _)) =>
  apply quiet_emit; discriminate : preserves.

Lemma quiet_run_test (params : Params) : preserves quiet (run_test E params).
Proof. unfold run_test, call_run_avocado. preserves_auto quiet. Qed.

#[local] Hint Resolve quiet_run_test : preserves.

Lemma quiet_test_runner (pl : list Params) (tr : TestResult) :
  preserves quiet (test_runner E pl tr).
Proof.
  unfold test_runner, test_runner_body, status_mapping_getitem.
  preserves_auto quiet.
Qed.

(** With the default runner, no clean-up is done up to the return of
    the loop, whether it returns or raises. *)
Lemma quiet_run_loop (urls : option Urls) (mf : option string) (s : State) :
  default_runner (job s) -> quiet s (_run_loop E urls mf s).2.
Proof.
  intros Hdef. unfold _run_loop, bind.
  pose proof (run_params_list_state urls mf s) as Hstate.
  destruct (_run_params_list E urls mf s) as [[pl|e] s0]; simpl in Hstate;
    subst s0; [|reflexivity].
  destruct (make_test_result_returns pl s)
    as (tr & sa & Hmk & Hev & _ & Hcfg & _ & Hkeep).
  rewrite Hmk.
  rewrite make_test_runner_default
    by (by apply (default_runner_same_config (job s))).
  transitivity sa.
  - unfold quiet. rewrite Hev, cleanups_app. simpl.
    destruct Hcfg as (_ & _ & _ & Hrunner).
    split; [lia|]. by split.
  - apply quiet_test_runner.
Qed.

Lemma for_each_output_error (lines : list string) (s : State) :
  for_each (fun _ line => output_error line) lines tt s =
    (Ok tt, mkState (job s) (events s ++ map EvError lines)).
Proof.
  revert s. induction lines as [|line lines IH]; intros s; simpl.
  - unfold ret. rewrite app_nil_r. by destruct s.
  - unfold bind at 1. unfold output_error at 1, emit. rewrite IH. simpl.
    by rewrite <- app_assoc.
Qed.

(** What the handler of job-level failures returns and leaves. *)
Lemma run_except_JobBaseException_returns (e : Exc) (cls st : string)
    (s : State) :
  exc_class e = JobBaseException cls st ->
  run_except_JobBaseException e s =
    (Ok AVOCADO_JOB_FAIL,
     mkState (set_job_status (job s) st)
             (events s ++ [EvLogFailHeader ("Avocado job failed: " +:+ cls
                                            +:+ ": " +:+ exc_msg e)])).
Proof.
  intros Hcls.
  unfold run_except_JobBaseException, exc_status, bind, set_status,
    log_fail_header, emit, ret.
  rewrite Hcls. reflexivity.
Qed.

(** What the handler of the other exceptions returns and leaves. *)
Lemma run_except_Exception_returns (e : Exc) (s : State) :
  run_except_Exception E e s =
    (Ok AVOCADO_CRASH,
     mkState (set_job_status (job s) "ERROR")
             (events s
                ++ [EvLogFailHeader ("Avocado crashed: "
                                     +:+ class_name (exc_class e) +:+ ": "
                                     +:+ exc_msg e)]
                ++ map EvError (format_exception E (exc_class e) (exc_msg e)
                                  (tail (exc_tb e)))
                ++ [EvLogFailHeader
                      "Please include the traceback info and command line used on your bug report";
                    EvLogFailHeader ("Report bugs visiting " +:+ _NEW_ISSUE_LINK)])).
Proof.
  unfold run_except_Exception, bind, set_status, log_fail_header, emit, ret,
    tb_next.
  simpl. rewrite for_each_output_error. simpl.
  by rewrite <- !app_assoc.
Qed.

(** [run] is [_run] in the frame of [run], with the two handlers. *)
Lemma run_unfold (urls : option Urls) (mf : option string) (s : State) :
  run E urls mf s =
    match _run E urls mf s with
    | (Ok c, s') => (Ok c, s')
    | (Raise e, s') =>
        handle [(is_JobBaseException, run_except_JobBaseException);
                (is_Exception, run_except_Exception E)]
               (mkExc (exc_class e) (exc_msg e) ("run" :: exc_tb e)) s'
    end.
Proof.
  unfold run, try_except, in_frame at 1.
  by destruct (_run E urls mf s) as [[c|e] s'].
Qed.

(** A run that returns is returned as it is. *)
Lemma run_passes_result (urls : option Urls) (mf : option string)
    (s s' : State) (c : ExitStatus) :
  _run E urls mf s = (Ok c, s') -> run E urls mf s = (Ok c, s').
Proof. intros Hrun. by rewrite run_unfold, Hrun. Qed.

Lemma cleanups_errors (lines : list string) : cleanups (map EvError lines) = 0.
Proof. induction lines; simpl; done. Qed.

(** C2, as the code has it.  When [_run] raises, [run] sorts the
    exception by its class.  A job-level failure: the job gets the
    status the failure carries, one failure header with the class name
    and the description is printed, and [AVOCADO_JOB_FAIL] is returned.
    Any other exception deriving from [Exception]: the job gets the
    status [ERROR]; a failure header with the class name and the
    message, every line of the traceback formatted without the frame of
    [run], the request for a bug report and the link to the issue
    tracker are printed, and [AVOCADO_CRASH] is returned.  An exception
    that does not derive from [Exception] is handled by neither clause:
    [run] raises it, and the job and the output are left as [_run] left
    them. *)
Theorem run_classifies_failure (urls : option Urls) (mf : option string)
    (s s1 : State) (e : Exc) :
  _run E urls mf s = (Raise e, s1) ->
  (forall cls st, exc_class e = JobBaseException cls st ->
     run E urls mf s =
       (Ok AVOCADO_JOB_FAIL,
        mkState (set_job_status (job s1) st)
                (events s1
                   ++ [EvLogFailHeader ("Avocado job failed: " +:+ cls
                                        +:+ ": " +:+ exc_msg e)]))) /\
  (is_JobBaseException (exc_class e) = false ->
   is_Exception (exc_class e) = true ->
     run E urls mf s =
       (Ok AVOCADO_CRASH,
        mkState (set_job_status (job s1) "ERROR")
                (events s1
                   ++ [EvLogFailHeader ("Avocado crashed: "
                                        +:+ class_name (exc_class e) +:+ ": "
                                        +:+ exc_msg e)]
                   ++ map EvError (format_exception E (exc_class e)
                                     (exc_msg e) (exc_tb e))
                   ++ [EvLogFailHeader
                         "Please include the traceback info and command line used on your bug report";
                       EvLogFailHeader
                         "Report bugs visiting https://github.com/avocado-framework/avocado/issues/new"]))) /\
  (is_Exception (exc_class e) = false ->
     run E urls mf s =
       (Raise (mkExc (exc_class e) (exc_msg e) ("run" :: exc_tb e)), s1)).
Proof.
  intros Hrun. rewrite run_unfold, Hrun. simpl.
  split; [|split].
  - intros cls st Hcls. rewrite Hcls. simpl.
    by rewrite (run_except_JobBaseException_returns _ cls st).
  - intros Hjob Hexc. rewrite Hjob, Hexc.
    by rewrite run_except_Exception_returns.
  - intros Hexc. rewrite Hexc.
    by destruct (exc_class e).
Qed.

(** C9.  A job made without [args] never calls [clean_tmp_files],
    whatever the run does.  More generally, with the default runner the
    run calls it once when [_run] returns, [args] is there and its
    [keep_tmp_files] is false, and not at all otherwise. *)
Theorem cleanup_only_with_args (urls : option Urls) (mf : option string)
    (s : State) :
  (args (job s) = None ->
     cleanups (events (run E urls mf s).2) = cleanups (events s)) /\
  (default_runner (job s) ->
     cleanups (events (run E urls mf s).2) =
       cleanups (events s) + cleanup_due (_run E urls mf s).1 (job s)).
Proof.
  assert (default_runner (job s) ->
          cleanups (events (run E urls mf s).2) =
            cleanups (events s) + cleanup_due (_run E urls mf s).1 (job s))
    as Hgeneral.
  { intros Hdef. pose proof (quiet_run_loop urls mf s Hdef) as Hquiet.
    rewrite run_unfold.
    destruct (_run_loop E urls mf s) as [[failures|e] s1] eqn:Hloop;
      simpl in Hquiet; destruct Hquiet as (Hcl & Hkeep & _).
    - rewrite (run_returns urls mf s s1 failures Hloop), run_finish_returns.
      simpl. rewrite cleanups_app, Hcl. f_equal.
      unfold cleanup_due.
      destruct (args (job s1)) as [a1|], (args (job s)) as [a|];
        simpl in Hkeep; try done.
      injection Hkeep as ->. by destruct (arg_keep_tmp_files a).
    - rewrite (run_raises urls mf s s1 e Hloop). simpl.
      unfold cleanup_due. rewrite Nat.add_0_r.
      destruct (is_JobBaseException (exc_class e)) eqn:Hjob.
      + destruct (exc_class e) as [| | | | | | |cls st|] eqn:Hcls; try done.
        rewrite (run_except_JobBaseException_returns _ cls st) by done.
        simpl. rewrite cleanups_app. simpl. lia.
      + destruct (is_Exception (exc_class e)); [|done].
        rewrite run_except_Exception_returns. simpl.
        rewrite cleanups_app. simpl.
        rewrite cleanups_app, cleanups_errors. simpl. lia. }
  split; [|exact Hgeneral].
  intros Hargs. rewrite Hgeneral.
  - unfold cleanup_due. rewrite Hargs.
    destruct (_run E urls mf s).1; lia.
  - intros a Ha. congruence.
Qed.

(** C10.  A job that is [RUNNING], uses the default runner and is given
    no identifier and no multiplex source: the loop is entered with no
    parameter set, calls [start_tests] and [end_tests] on the result
    collaborator and returns no failure; the run returns
    [AVOCADO_ALL_OK] and leaves the job with the status [PASS]. *)
Theorem run_without_tests (urls : option Urls) (mf : option string)
    (s : State) :
  status (job s) = "RUNNING" ->
  default_runner (job s) ->
  _run_urls (job s) urls = None \/ _run_urls (job s) urls = Some [] ->
  _run_multiplex_file E (job s) mf = None ->
  exists tr s1 s',
    _run_params_list E urls mf s = (Ok [], s) /\
    _run_loop E urls mf s = (Ok [], s1) /\
    events s1 = events s ++ [EvTestResult tr; EvStartTests; EvEndTests] /\
    run E urls mf s = (Ok AVOCADO_ALL_OK, s') /\
    status (job s') = "PASS".
Proof.
  intros Hstatus Hdef Hurls Hmux.
  assert (_run_params_list E urls mf s = (Ok [], s)) as Hpl.
  { unfold _run_params_list, bind, get_self. rewrite Hmux.
    destruct Hurls as [-> | ->]; reflexivity. }
  destruct (run_loop_default_returns urls mf s [] [] Hdef Hpl
              (List.Forall2_nil _))
    as (tr & s1 & Hloop & Hev & Hst & _).
  exists tr, s1, (_run_finish [] s1).2.
  split; [done|]. split; [exact Hloop|]. split; [exact Hev|]. split.
  - apply run_passes_result.
    rewrite (run_returns urls mf s s1 [] Hloop), run_finish_returns.
    reflexivity.
  - rewrite run_finish_returns. simpl.
    simpl in Hst. rewrite Hst, Hstatus. reflexivity.
Qed.

End Controller.

(** ** The model at work *)

Example split_whitespace_example :
  str_split_whitespace "  sleeptest   failtest.1 " = ["sleeptest"; "failtest.1"].
Proof. reflexivity. Qed.

Example repr_example :
  py_repr "INTERRUPTED" = "'INTERRUPTED'" /\
  py_repr "a\b" = "'a\\b'" /\
  py_repr "it's" = String double_quote ("it's" +:+ String double_quote "").
Proof. repeat split; reflexivity. Qed.

Example split_dot_example :
  str_split "." "sleeptest.1.short" = ["sleeptest"; "1"; "short"] /\
  identifier_prefix "sleeptest.1.short" = "sleeptest" /\
  identifier_prefix "check" = "check".
Proof. repeat split; reflexivity. Qed.

(** A new job is [RUNNING], and a job made without [args] has none. *)
Lemma Job_init_status (E : Env) (a : option Args) :
  status (Job_init E a) = "RUNNING" /\ args (Job_init E a) = a.
Proof. split; reflexivity. Qed.

(** The example of the spec: two identifiers, the first passes and the
    second fails. *)
Example run_one_failure :
  (run Sample.env (Some (UrlsList ["sleeptest"; "failtest"])) None
     Sample.fresh).1 = Ok AVOCADO_TESTS_FAIL /\
  (_run_loop Sample.env (Some (UrlsList ["sleeptest"; "failtest"])) None
     Sample.fresh).1 = Ok ["failtest"].
Proof. split; reflexivity. Qed.

(** No identifier and a multiplex file with two variants: two tests
    run, in the order of the file. *)
Example run_multiplex_alone :
  (_run_params_list Sample.env None (Some "sleep.mplx") Sample.fresh).1 =
    Ok [Sample.variant "short" "1"; Sample.variant "long" "5"] /\
  (run Sample.env None (Some "sleep.mplx") Sample.fresh).1 = Ok AVOCADO_ALL_OK.
Proof. split; reflexivity. Qed.

(** A job made from a command line cleans up once. *)
Example run_from_cli_cleans_up :
  (run Sample.env None None Sample.from_cli).1 = Ok AVOCADO_TESTS_FAIL /\
  cleanups (events (run Sample.env None None Sample.from_cli).2) = 1.
Proof. split; reflexivity. Qed.

(** A module whose import fails with an error other than [ImportError]
    ends in the same way as a module without the attribute. *)
Example load_broken_module_raises :
  (_load_test_instance Sample.env (bare_params "broken") Sample.fresh).1 =
    Raise (mkExc UnboundLocalError
                 "local variable 'test_class' referenced before assignment"
                 ["_load_test_instance"]).
Proof. reflexivity. Qed.

(** C2, as the claim has it: [run] never raises.  A test interrupted
    from the keyboard raises [KeyboardInterrupt], which is no
    [Exception]: [run] raises it. *)
Lemma run_raises_keyboard_interrupt :
  (run Sample.env (Some (UrlsList ["stopped"])) None Sample.fresh).1 =
    Raise (mkExc KeyboardInterrupt ""
                 ["run"; "_run"; "test_runner"; "run_test"; "run_avocado"]).
Proof. reflexivity. Qed.

Lemma run_classifies_failure_witness :
  _run Sample.env (Some (UrlsList ["helper"])) None Sample.fresh =
    (Raise (mkExc UnboundLocalError
                  "local variable 'test_class' referenced before assignment"
                  ["_run"; "test_runner"; "run_test"; "_load_test_instance"]),
     (_run Sample.env (Some (UrlsList ["helper"])) None Sample.fresh).2) /\
  (run Sample.env (Some (UrlsList ["helper"])) None Sample.fresh).1 =
    Ok AVOCADO_CRASH /\
  status (job (run Sample.env (Some (UrlsList ["helper"])) None
                 Sample.fresh).2) = "ERROR".
Proof.
  split; [reflexivity|].
  destruct (run_classifies_failure Sample.env (Some (UrlsList ["helper"])) None
              Sample.fresh
              (_run Sample.env (Some (UrlsList ["helper"])) None Sample.fresh).2
              (mkExc UnboundLocalError
                 "local variable 'test_class' referenced before assignment"
                 ["_run"; "test_runner"; "run_test"; "_load_test_instance"])
              eq_refl) as (_ & Hcrash & _).
  rewrite Hcrash; [split; reflexivity | reflexivity | reflexivity].
Defined.

(** C6 does not hold of every sequence.  The run of [fataltest] raises a
    job-level failure: the loop has no handler, so the failure leaves
    it on its way to [run]; [check_test] is not called for
    [fataltest], [failtest] is never started and [end_tests] is not
    called. *)
Lemma test_runner_aborted_by_job_failure :
  let params_list :=
    [bare_params "sleeptest"; bare_params "fataltest"; bare_params "failtest"] in
  let outcome :=
    test_runner Sample.env_abort params_list Sample.human Sample.fresh in
  outcome.1 =
    Raise (mkExc (JobBaseException "JobError" "ERROR")
                 "no space left for the logs"
                 ["test_runner"; "run_test"; "run_avocado"]) /\
  events (outcome.2) =
    [EvStartTests;
     EvRunAvocado (Sample.instance (ModuleTest "sleeptest") "sleeptest");
     EvCheckTest
       (set_test_status (Sample.instance (ModuleTest "sleeptest") "sleeptest")
          (Some "PASS"));
     EvRunAvocado (Sample.instance (ModuleTest "fataltest") "fataltest")] /\
  (EvEndTests ∉ events (outcome.2)) /\
  (EvRunAvocado (Sample.instance (ModuleTest "failtest") "failtest")
     ∉ events (outcome.2)).
Proof.
  cbv zeta.
  assert (events (test_runner Sample.env_abort
            [bare_params "sleeptest"; bare_params "fataltest";
             bare_params "failtest"] Sample.human Sample.fresh).2 =
    [EvStartTests;
     EvRunAvocado (Sample.instance (ModuleTest "sleeptest") "sleeptest");
     EvCheckTest
       (set_test_status (Sample.instance (ModuleTest "sleeptest") "sleeptest")
          (Some "PASS"));
     EvRunAvocado (Sample.instance (ModuleTest "fataltest") "fataltest")])
    as Hlog by reflexivity.
  split; [reflexivity|]. split; [exact Hlog|]. rewrite Hlog.
  split; intros Hin; repeat (apply elem_of_cons in Hin as [Hin|Hin];
    [discriminate Hin|]); by apply elem_of_nil in Hin.
Qed.

Lemma run_exit_status_witness :
  _run Sample.env (Some (UrlsStr "sleeptest failtest")) None Sample.fresh =
    (Ok AVOCADO_TESTS_FAIL,
     (_run Sample.env (Some (UrlsStr "sleeptest failtest")) None
        Sample.fresh).2) /\
  exists failures s1,
    _run_loop Sample.env (Some (UrlsStr "sleeptest failtest")) None
      Sample.fresh = (Ok failures, s1) /\
    failures <> [].
Proof.
  split; [reflexivity|].
  destruct (run_exit_status Sample.env (Some (UrlsStr "sleeptest failtest"))
              None Sample.fresh
              (_run Sample.env (Some (UrlsStr "sleeptest failtest")) None
                 Sample.fresh).2
              AVOCADO_TESTS_FAIL eq_refl)
    as (failures & s1 & Hloop & _ & Hfail & _).
  exists failures, s1. split; [exact Hloop|]. by apply Hfail.
Defined.

Lemma run_sets_pass_only_when_running_witness :
  _run Sample.env (Some (UrlsStr "sleeptest fataltest")) None Sample.fresh =
    (Ok AVOCADO_TESTS_FAIL,
     (_run Sample.env (Some (UrlsStr "sleeptest fataltest")) None
        Sample.fresh).2) /\
  status (job (_run Sample.env (Some (UrlsStr "sleeptest fataltest")) None
                 Sample.fresh).2) = "FAIL" /\
  exists failures s1,
    _run_loop Sample.env (Some (UrlsStr "sleeptest fataltest")) None
      Sample.fresh = (Ok failures, s1) /\
    (status (job s1) <> "RUNNING" ->
     status (job (_run Sample.env (Some (UrlsStr "sleeptest fataltest")) None
                    Sample.fresh).2) = status (job s1)).
Proof.
  split; [reflexivity|]. split; [reflexivity|].
  destruct (run_sets_pass_only_when_running Sample.env
              (Some (UrlsStr "sleeptest fataltest")) None Sample.fresh
              (_run Sample.env (Some (UrlsStr "sleeptest fataltest")) None
                 Sample.fresh).2
              AVOCADO_TESTS_FAIL eq_refl)
    as (failures & s1 & Hloop & _ & Hkept).
  exists failures, s1. split; [exact Hloop | exact Hkept].
Defined.

Lemma cleanup_only_with_args_witness :
  args (job Sample.fresh) = None /\
  default_runner (job Sample.fresh) /\
  cleanups (events (run Sample.env (Some (UrlsStr "sleeptest failtest")) None
                      Sample.fresh).2) = cleanups (events Sample.fresh) /\
  cleanups (events (run Sample.env (Some (UrlsStr "sleeptest failtest")) None
                      Sample.fresh).2) =
    cleanups (events Sample.fresh)
    + cleanup_due (_run Sample.env (Some (UrlsStr "sleeptest failtest")) None
                     Sample.fresh).1 (job Sample.fresh).
Proof.
  destruct (cleanup_only_with_args Sample.env
              (Some (UrlsStr "sleeptest failtest")) None Sample.fresh)
    as [Hnone Hdefault].
  split; [reflexivity|]. split; [intros a Ha; discriminate Ha|]. split.
  - apply Hnone. reflexivity.
  - apply Hdefault. intros a Ha. discriminate Ha.
Defined.

Lemma run_without_tests_witness :
  status (job Sample.fresh) = "RUNNING" /\
  exists tr s1 s',
    _run_params_list Sample.env None None Sample.fresh = (Ok [], Sample.fresh) /\
    _run_loop Sample.env None None Sample.fresh = (Ok [], s1) /\
    events s1 =
      events Sample.fresh ++ [EvTestResult tr; EvStartTests; EvEndTests] /\
    run Sample.env None None Sample.fresh = (Ok AVOCADO_ALL_OK, s') /\
    status (job s') = "PASS".
Proof.
  split; [reflexivity|].
  apply (run_without_tests Sample.env None None Sample.fresh).
  - reflexivity.
  - intros a Ha. discriminate Ha.
  - left. reflexivity.
  - reflexivity.
Defined.

(** * More of the module *)

(** ** More on the resolver *)

Section ResolverMore.

Context (E : Env).

(** X1.  A parameter set without the key [shortname]: [params.get] gives
    [None] and the call of [split] on it raises [AttributeError]; the
    state is untouched. *)
Theorem load_missing_shortname_raises (params : Params) (s : State) :
  params !! "shortname" = None ->
  _load_test_instance E params s =
    (Raise (mkExc AttributeError "'NoneType' object has no attribute 'split'"
                  ["_load_test_instance"]), s).
Proof.
  intros Hnone. unfold _load_test_instance, in_frame, bind, get_self, raise.
  rewrite Hnone. reflexivity.
Qed.


(** X3.  An instance the resolver returns always carries the log directory
    of the job, the reference to the job and no status yet; it is made
    either from the path of the prefix, which then exists, with no
    parameter set, or from the prefix as its name with the whole
    parameter set.  The state is untouched. *)
Theorem load_returns_invariant (params : Params) (s s' : State)
    (t : TestInstance) :
  _load_test_instance E params s = (Ok t, s') ->
  s' = s /\
  ti_base_logdir t = debugdir (job s) /\
  ti_job t = unique_id (job s) /\
  ti_status t = None /\
  exists shortname,
    params !! "shortname" = Some shortname /\
    ((os_path_exists E (os_path_abspath E (identifier_prefix shortname)) = true /\
      ti_class t = DropinTest /\
      ti_path t = Some (os_path_abspath E (identifier_prefix shortname)) /\
      ti_params t = None) \/
     (os_path_exists E (os_path_abspath E (identifier_prefix shortname)) = false /\
      ti_name t = identifier_prefix shortname /\
      ti_path t = None /\
      ti_params t = Some params)).
Proof.
  unfold _load_test_instance, call_test_class, in_frame, bind, get_self,
    try_finally, try_except, ret, raise, lift.
  destruct (params !! "shortname") as [shortname|] eqn:Hshort; simpl;
    [|discriminate].
  rewrite str_split_first. simpl.
  destruct (os_path_exists E _) eqn:Hexists; simpl.
  { intros [= <- <-]. do 4 (split; [done|]). exists shortname.
    split; [done|]. left. done. }
  assert (forall c : TestClass,
            (Ok (new_test_by_name c (identifier_prefix shortname)
                   (debugdir (job s)) params (job s)), s) = (Ok t, s') ->
            s' = s /\ ti_base_logdir t = debugdir (job s) /\
            ti_job t = unique_id (job s) /\ ti_status t = None /\
            exists shortname0,
              Some shortname = Some shortname0 /\
              ((os_path_exists E (os_path_abspath E (identifier_prefix shortname0)) = true /\
                ti_class t = DropinTest /\
                ti_path t = Some (os_path_abspath E (identifier_prefix shortname0)) /\
                ti_params t = None) \/
               (os_path_exists E (os_path_abspath E (identifier_prefix shortname0)) = false /\
                ti_name t = identifier_prefix shortname0 /\
                ti_path t = None /\ ti_params t = Some params))) as Hnamed.
  { intros c [= <- <-]. do 4 (split; [done|]). exists shortname.
    split; [done|]. right. done. }
  destruct (imp_find_module E _ _) as [fpd|]; simpl; [|apply Hnamed].
  destruct (imp_load_module E _ fpd) as [e0|m]; simpl.
  - destruct (is_ImportError (exc_class e0)); simpl;
      [apply Hnamed | discriminate].
  - destruct (fm_file fpd); simpl; [|discriminate].
    destruct (m !! _) as [[cls|ty]|]; simpl; [|discriminate..].
    destruct (test_init E _ _ _ _ _); simpl; [discriminate | apply Hnamed].
Qed.

(** X4.  Discovery that fails with [ImportError], because no module is found
    or because the import of the module raises it, gives an instance of
    [MissingTest] named after the prefix, with the log directory of the
    job, the whole parameter set and the job. *)
Theorem load_import_error_gives_missing (params : Params)
    (shortname : string) (s : State) :
  params !! "shortname" = Some shortname ->
  let url := identifier_prefix shortname in
  os_path_exists E (os_path_abspath E url) = false ->
  (imp_find_module E url [os_path_join (test_dir (job s)) url] = None \/
   exists fpd e,
     imp_find_module E url [os_path_join (test_dir (job s)) url] = Some fpd /\
     imp_load_module E url fpd = inl e /\
     exc_class e = ImportError) ->
  _load_test_instance E params s =
    (Ok (mkTest MissingTest url None (debugdir (job s)) (Some params)
                (unique_id (job s)) None), s).
Proof.
  intros Hshort url Hexists [Hfind | (fpd & e & Hfind & Hload & Hcls)].
  - by apply load_module_not_found_is_missing.
  - by apply (load_import_error_is_missing E params shortname s fpd e).
Qed.

(** X5.  What follows the first ['.'] of the shortname plays no part in the
    discovery: for two parameter sets whose shortnames have the same
    prefix, instances that are both returned have the same class, name
    and path; when one is an instance of [DropinTest] or [MissingTest],
    the other is returned as well; and when one raises, the other
    raises the same exception, unless a class was discovered, whose
    constructor is called with the parameter set and may accept one and
    refuse the other. *)
Theorem load_depends_on_prefix_only (params1 params2 : Params)
    (shortname1 shortname2 : string) (s : State) :
  params1 !! "shortname" = Some shortname1 ->
  params2 !! "shortname" = Some shortname2 ->
  identifier_prefix shortname1 = identifier_prefix shortname2 ->
  let url := identifier_prefix shortname1 in
  (forall t1 t2,
     (_load_test_instance E params1 s).1 = Ok t1 ->
     (_load_test_instance E params2 s).1 = Ok t2 ->
     ti_kind t1 = ti_kind t2) /\
  (forall t1,
     (_load_test_instance E params1 s).1 = Ok t1 ->
     ti_class t1 = DropinTest \/ ti_class t1 = MissingTest ->
     exists t2,
       (_load_test_instance E params2 s).1 = Ok t2 /\ ti_kind t1 = ti_kind t2) /\
  (forall e,
     (_load_test_instance E params1 s).1 = Raise e ->
     (_load_test_instance E params2 s).1 = Raise e \/
     exists fpd m cls,
       imp_find_module E url [os_path_join (test_dir (job s)) url] = Some fpd /\
       imp_load_module E url fpd = inr m /\
       m !! url = Some (AttrClass cls)).
Proof.
  intros Hshort1 Hshort2 Hprefix url. subst url.
  unfold _load_test_instance, call_test_class, in_frame, bind, get_self,
    try_finally, try_except, ret, raise, lift.
  rewrite Hshort1, Hshort2. simpl. rewrite !str_split_first. simpl.
  rewrite <- Hprefix.
  destruct (os_path_exists E _); simpl.
  { split; [|split]; [| |discriminate].
    - by intros t1 t2 [= <-] [= <-].
    - intros t1 [= <-] _. by eexists. }
  destruct (imp_find_module E _ _) as [fpd|] eqn:Hfind; simpl.
  2:{ split; [|split]; [| |discriminate].
      - by intros t1 t2 [= <-] [= <-].
      - intros t1 [= <-] _. by eexists. }
  destruct (imp_load_module E _ fpd) as [e0|m] eqn:Hload; simpl.
  - destruct (is_ImportError (exc_class e0)); simpl.
    + split; [|split]; [| |discriminate].
      * by intros t1 t2 [= <-] [= <-].
      * intros t1 [= <-] _. by eexists.
    + split; [|split]; [discriminate..|]. intros e [= <-]. by left.
  - destruct (fm_file fpd); simpl.
    2:{ split; [|split]; [discriminate..|]. intros e [= <-]. by left. }
    destruct (m !! _) as [[cls|ty]|] eqn:Hattr; simpl.
    + split; [|split].
      * destruct (test_init E cls _ _ params1 _); simpl; [discriminate|].
        destruct (test_init E cls _ _ params2 _); simpl; [discriminate|].
        by intros t1 t2 [= <-] [= <-].
      * destruct (test_init E cls _ _ params1 _); simpl; [discriminate|].
        intros t1 [= <-]. simpl. by intros [|].
      * intros e _. right. by exists fpd, m, cls.
    + split; [|split]; [discriminate..|]. intros e [= <-]. by left.
    + split; [|split]; [discriminate..|]. intros e [= <-]. by left.
Qed.

(** X6.  A test module that is a package: [imp.find_module] returns no open
    file, [f.close()] raises [AttributeError] after the import, and the
    resolver raises [UnboundLocalError] even when the package defines
    the class. *)
Theorem load_package_raises (params : Params) (shortname : string)
    (s : State) (fpd : FoundModule) (m : gmap string ModuleAttr) :
  params !! "shortname" = Some shortname ->
  let url := identifier_prefix shortname in
  os_path_exists E (os_path_abspath E url) = false ->
  imp_find_module E url [os_path_join (test_dir (job s)) url] = Some fpd ->
  imp_load_module E url fpd = inr m ->
  fm_file fpd = None ->
  _load_test_instance E params s =
    (Raise (mkExc UnboundLocalError
                  "local variable 'test_class' referenced before assignment"
                  ["_load_test_instance"]), s).
Proof.
  intros Hshort url Hexists Hfind Hload Hfile. subst url.
  unfold _load_test_instance, in_frame, bind, get_self, ret, try_finally,
    try_except, raise, lift.
  rewrite Hshort. simpl. rewrite str_split_first. simpl.
  rewrite Hexists, Hfind. simpl. rewrite Hload. simpl.
  rewrite Hfile. reflexivity.
Qed.

End ResolverMore.

(** ** More on the execution loop *)

Section LoopMore.

Context (E : Env).

(** The frames an exception gets on its way out of [run_test] and out
    of [test_runner]. *)
Lemma run_test_unresolved (params : Params) (e : Exc) (s : State) :
  resolve E (job s) params = Raise e ->
  run_test E params s =
    (Raise (mkExc (exc_class e) (exc_msg e) ("run_test" :: exc_tb e)), s).
Proof.
  intros Hres. unfold run_test, in_frame, bind.
  by rewrite load_test_instance_resolve, Hres.
Qed.

Lemma run_test_raises (params : Params) (t : TestInstance) (e : Exc)
    (s : State) :
  resolve E (job s) params = Ok t ->
  run_avocado E t = RunRaises e ->
  run_test E params s =
    (Raise (mkExc (exc_class e) (exc_msg e) ("run_test" :: exc_tb e)),
     mkState (job s) (events s ++ [EvRunAvocado t])).
Proof.
  intros Hres Hrun. unfold run_test, in_frame, bind.
  rewrite load_test_instance_resolve, Hres.
  unfold call_run_avocado, bind, emit, lift. by rewrite Hrun.
Qed.

Lemma for_each_app {A B} (body : B -> A -> M B) (l1 l2 : list A) (acc : B)
    (s : State) :
  for_each body (l1 ++ l2) acc s =
    (acc' <- for_each body l1 acc ;; for_each body l2 acc') s.
Proof.
  revert acc s. induction l1 as [|x l1 IH]; intros acc s; simpl.
  - reflexivity.
  - unfold bind.
    destruct (body acc x s) as [[acc1|e] s1]; [|reflexivity].
    rewrite IH. reflexivity.
Qed.

(** The loop over a sequence whose first tests run to their end and
    whose next turn raises. *)
Lemma for_each_test_runner_body_stops (tr : TestResult) (pre : list Params)
    (rs : list Ran) (p : Params) (post : list Params) (e : Exc)
    (failures : list string) (s s1 : State) :
  Forall2 (runs_as E (job s)) pre rs ->
  test_runner_body E tr (failures ++ failures_of rs) p
    (mkState (set_job_status (job s) (job_status_after rs (status (job s))))
             (events s ++ loop_trace rs)) = (Raise e, s1) ->
  for_each (test_runner_body E tr) (pre ++ p :: post) failures s = (Raise e, s1).
Proof.
  intros Hpre Hbody. rewrite for_each_app. unfold bind at 1.
  rewrite (for_each_test_runner_body E tr pre rs (job s) Hpre failures s)
    by apply same_identity_refl.
  simpl. unfold bind at 1. by rewrite Hbody.
Qed.

Lemma test_runner_unresolved (pre : list Params)
    (rs : list Ran) (p : Params) (post : list Params) (tr : TestResult)
    (e : Exc) (s : State) :
  Forall2 (runs_as E (job s)) pre rs ->
  resolve E (job s) p = Raise e ->
  test_runner E (pre ++ p :: post) tr s =
    (Raise (mkExc (exc_class e) (exc_msg e)
                  ("test_runner" :: "run_test" :: exc_tb e)),
     after_tests rs s).
Proof.
  intros Hpre Hres.
  unfold test_runner, in_frame, bind at 1, emit.
  unfold bind at 1.
  erewrite for_each_test_runner_body_stops; [| exact Hpre |]; cycle 1.
  - unfold test_runner_body, bind.
    rewrite (run_test_unresolved p e); [reflexivity|].
    simpl. rewrite <- Hres. symmetry. apply resolve_same_identity.
    apply same_identity_set_status.
  - simpl. unfold after_tests. by rewrite <- app_assoc.
Qed.

(** X7.  A test that cannot be resolved stops the loop: the exception of the
    resolver leaves [test_runner]; the tests before it have run and
    been checked, [run_avocado] and [check_test] are not called for it,
    the tests after it are not run and [end_tests] is not called. *)
Theorem test_runner_stops_at_unresolved_test (pre : list Params)
    (rs : list Ran) (p : Params) (post : list Params) (tr : TestResult)
    (e : Exc) (s : State) :
  Forall2 (runs_as E (job s)) pre rs ->
  resolve E (job s) p = Raise e ->
  test_runner E (pre ++ p :: post) tr s =
    (Raise (mkExc (exc_class e) (exc_msg e)
                  ("test_runner" :: "run_test" :: exc_tb e)),
     after_tests rs s).
Proof.
  intros Hpre Hres.
  unfold test_runner, in_frame, bind at 1, emit.
  unfold bind at 1.
  erewrite for_each_test_runner_body_stops; [| exact Hpre |]; cycle 1.
  - unfold test_runner_body, bind.
    rewrite (run_test_unresolved p e); [reflexivity|].
    simpl. rewrite <- Hres. symmetry. apply resolve_same_identity.
    apply same_identity_set_status.
  - simpl. unfold after_tests. by rewrite <- app_assoc.
Qed.

(** X8.  A test whose run raises stops the loop in the same way, [run_avocado]
    having been called on its instance. *)
Theorem test_runner_stops_when_run_raises (pre : list Params)
    (rs : list Ran) (p : Params) (post : list Params) (tr : TestResult)
    (t : TestInstance) (e : Exc) (s : State) :
  Forall2 (runs_as E (job s)) pre rs ->
  resolve E (job s) p = Ok t ->
  run_avocado E t = RunRaises e ->
  test_runner E (pre ++ p :: post) tr s =
    (Raise (mkExc (exc_class e) (exc_msg e)
                  ("test_runner" :: "run_test" :: exc_tb e)),
     mkState (job (after_tests rs s))
             (events (after_tests rs s) ++ [EvRunAvocado t])).
Proof.
  intros Hpre Hres Hrun.
  unfold test_runner, in_frame, bind at 1, emit.
  unfold bind at 1.
  erewrite for_each_test_runner_body_stops; [| exact Hpre |]; cycle 1.
  - unfold test_runner_body, bind.
    rewrite (run_test_raises p t e); [reflexivity| |exact Hrun].
    simpl. rewrite <- Hres. symmetry. apply resolve_same_identity.
    apply same_identity_set_status.
  - simpl. unfold after_tests. simpl. by rewrite <- !app_assoc.
Qed.

Lemma test_runner_body_unknown_status (tr : TestResult)
    (failures : list string) (p : Params) (t : TestInstance)
    (st : option string) (js : option string) (s : State) :
  resolve E (job s) p = Ok t ->
  run_avocado E t = RunReturns st js ->
  (forall v, st = Some v -> status_mapping E v = None) ->
  test_runner_body E tr failures p s =
    (Raise (mkExc KeyError (from_option py_repr "None" st) []),
     mkState (set_job_status (job s) (default (status (job s)) js))
             (events s ++ [EvRunAvocado t; EvCheckTest (set_test_status t st)])).
Proof.
  intros Hres Hrun Hmap.
  unfold test_runner_body, bind, run_test, in_frame, bind.
  rewrite load_test_instance_resolve, Hres.
  unfold call_run_avocado, bind, emit. rewrite Hrun.
  unfold status_mapping_getitem, raise.
  destruct st as [v|].
  - pose proof (Hmap v eq_refl) as Hv.
    destruct js; simpl; rewrite Hv, <- ?app_assoc, ?set_job_status_same;
      reflexivity.
  - destruct js; simpl; rewrite <- ?app_assoc, ?set_job_status_same;
      reflexivity.
Qed.

(** X9.  A test that ends with a status [status.mapping] does not know, or
    with no status: [check_test] is called with the instance, then the
    lookup raises [KeyError], whose text is the [repr] of the status
    (the status between quotes, or [None]), and the loop stops;
    [end_tests] is not called. *)
Theorem test_runner_unknown_status (pre : list Params) (rs : list Ran)
    (p : Params) (post : list Params) (tr : TestResult) (t : TestInstance)
    (st : option string) (js : option string) (s : State) :
  Forall2 (runs_as E (job s)) pre rs ->
  resolve E (job s) p = Ok t ->
  run_avocado E t = RunReturns st js ->
  (forall v, st = Some v -> status_mapping E v = None) ->
  test_runner E (pre ++ p :: post) tr s =
    (Raise (mkExc KeyError (from_option py_repr "None" st) ["test_runner"]),
     mkState (set_job_status (job s)
                (default (job_status_after rs (status (job s))) js))
             (events (after_tests rs s)
                ++ [EvRunAvocado t; EvCheckTest (set_test_status t st)])).
Proof.
  intros Hpre Hres Hrun Hmap.
  unfold test_runner, in_frame, bind at 1, emit.
  unfold bind at 1.
  set (s0 := mkState (job s) (events s ++ [EvStartTests])).
  set (mid := mkState (set_job_status (job s0)
                         (job_status_after rs (status (job s0))))
                      (events s0 ++ loop_trace rs)).
  assert (resolve E (job mid) p = Ok t) as Hres'.
  { rewrite <- Hres. symmetry. apply resolve_same_identity.
    apply same_identity_set_status. }
  rewrite (for_each_test_runner_body_stops tr pre rs p post _ [] s0 _ Hpre
             (test_runner_body_unknown_status tr _ p t st js mid
                Hres' Hrun Hmap)).
  simpl. unfold after_tests. simpl. by rewrite <- !app_assoc.
Qed.

Lemma failures_of_length (rs : list Ran) :
  List.length (failures_of rs) <= List.length rs.
Proof.
  unfold failures_of. rewrite length_map. apply List.filter_length_le.
Qed.

Lemma check_tests_app (evs evs' : list Event) :
  check_tests (evs ++ evs') = check_tests evs + check_tests evs'.
Proof.
  induction evs as [|ev evs IH]; [done|].
  destruct ev; simpl; by rewrite ?IH.
Qed.

Lemma check_tests_loop_trace (rs : list Ran) :
  check_tests (loop_trace rs) = List.length rs.
Proof.
  induction rs as [|r rs IH]; [done|].
  unfold loop_trace in *. simpl. by rewrite IH.
Qed.

(** X10.  When the loop returns, every parameter set was resolved, run and
    checked, once and in order, and [end_tests] closes the log: there
    are as many calls of [check_test] as parameter sets and at most as
    many failures. *)
Theorem test_runner_returns_only_if_all_ran (params_list : list Params)
    (tr : TestResult) (failures : list string) (s s' : State) :
  test_runner E params_list tr s = (Ok failures, s') ->
  exists rs new,
    Forall2 (runs_as E (job s)) params_list rs /\
    failures = failures_of rs /\
    events s' = events s ++ new /\
    new = [EvStartTests] ++ loop_trace rs ++ [EvEndTests] /\
    check_tests new = List.length params_list /\
    List.length failures <= List.length params_list.
Proof.
  intros Hrun. destruct (test_runner_inv E _ _ _ _ _ Hrun) as [rs Hrs].
  rewrite (test_runner_returns E params_list tr rs s Hrs) in Hrun.
  injection Hrun as <- <-.
  exists rs, ([EvStartTests] ++ loop_trace rs ++ [EvEndTests]).
  pose proof (Forall2_length _ _ _ Hrs) as Hlen.
  split; [done|]. split; [done|]. split; [done|]. split; [done|]. split.
  - simpl. rewrite check_tests_app, check_tests_loop_trace. simpl. lia.
  - rewrite Hlen. apply failures_of_length.
Qed.

#[local] Instance only_status_written_preorder : PreOrder only_status_written.
Proof.
  split.
  - intros s. exists (status (job s)). by rewrite set_job_status_same.
  - intros s1 s2 s3 [st Hst] [st' Hst']. exists st'.
    rewrite Hst', Hst. reflexivity.
Qed.

Lemma only_status_set_status (st : string) :
  preserves only_status_written (set_status st).
Proof. intros s. by exists st. Qed.

Lemma only_status_emit (ev : Event) : preserves only_status_written (emit ev).
Proof.
  intros s. exists (status (job s)). simpl. by rewrite set_job_status_same.
Qed.

Lemma only_status_load_test_instance (params : Params) :
  preserves only_status_written (_load_test_instance E params).
Proof. intros s. rewrite load_test_instance_state. reflexivity. Qed.

#[local] Hint Resolve only_status_set_status only_status_emit
  only_status_load_test_instance : preserves.

(** X25.  Whatever the tests do and however the loop ends, it writes nothing
    on the job but its status: [args] and the attributes the job was
    made with are as they were. *)
Theorem test_runner_only_writes_status (params_list : list Params)
    (tr : TestResult) (s : State) :
  exists st,
    job (test_runner E params_list tr s).2 = set_job_status (job s) st.
Proof.
  assert (preserves only_status_written (test_runner E params_list tr)) as H.
  { unfold test_runner, test_runner_body, run_test, call_run_avocado,
      status_mapping_getitem.
    preserves_auto only_status_written. }
  apply H.
Qed.

End LoopMore.

(** ** More on the controller *)

Section ControllerMore.

Context (E : Env).

(** X11.  A multiplex source alone.  When no identifier list is given,
    neither as [urls] nor as [args.url], the parameter sets are the
    variants the engine yields with no filter, in its order.  When an
    identifier list is given and is empty, as an empty list or as a
    string of blanks only, the engine is not asked and there is no
    parameter set. *)
Theorem params_list_multiplex_alone (urls : option Urls) (mf : option string)
    (f : string) (s : State) :
  _run_multiplex_file E (job s) mf = Some f ->
  (urls = None ->
   (forall a, args (job s) = Some a -> arg_url a = None) ->
   forall vs,
     multiplex_get_dicts E f None = Ok vs ->
     _run_params_list E urls mf s = (Ok vs, s)) /\
  (_run_urls (job s) urls = Some [] ->
   _run_params_list E urls mf s = (Ok [], s)).
Proof.
  intros Hmux. split.
  - intros -> Hargs vs Hdicts.
    assert (_run_urls (job s) None = None) as Hurls.
    { unfold _run_urls. destruct (args (job s)) as [a|]; [|done].
      by rewrite (Hargs a eq_refl). }
    unfold _run_params_list, bind, get_self. rewrite Hurls, Hmux.
    unfold _run_multiplex, bind, lift, ret. rewrite Hdicts.
    by rewrite fold_left_append, map_id.
  - intros Hurls.
    unfold _run_params_list, bind, get_self. rewrite Hurls, Hmux.
    reflexivity.
Qed.

(** X12.  The builder can only fail through the multiplex engine, and when it
    does [_run] raises the exception of the engine having done nothing:
    the job and the log are as they were, no result object is made and
    no test is run. *)
Theorem run_builder_failure_touches_nothing (urls : option Urls)
    (mf : option string) (e : Exc) (s : State) :
  (_run_params_list E urls mf s).1 = Raise e ->
  is_Some (_run_multiplex_file E (job s) mf) /\
  _run E urls mf s =
    (Raise (mkExc (exc_class e) (exc_msg e) ("_run" :: exc_tb e)), s).
Proof.
  intros Hraise. split.
  - revert Hraise. unfold _run_params_list, bind, get_self.
    destruct (_run_multiplex_file E (job s) mf); [by eexists|].
    discriminate.
  - apply run_raises. unfold _run_loop, bind.
    pose proof (run_params_list_state E urls mf s) as Hstate.
    destruct (_run_params_list E urls mf s) as [[pl|e0] s0]; simpl in *;
      [discriminate|].
    by injection Hraise as ->; subst s0.
Qed.

(** X13.  What [_make_test_result] does.  Without [args] it builds a
    [HumanTestResult] from no namespace and leaves the job alone.  With
    [args] it first writes on the namespace the debug log and the log
    level of the job and, as the total, the number of parameter sets;
    the other attributes stay; the result object is built from the class
    [args.test_result] names, [HumanTestResult] by default, and from
    that same namespace. *)
Theorem make_test_result_seeds_total (pl : list Params) (s : State) :
  (args (job s) = None ->
   _make_test_result pl s =
     (Ok (mkTestResult "HumanTestResult" None),
      mkState (job s)
              (events s ++ [EvTestResult (mkTestResult "HumanTestResult" None)]))) /\
  (forall a, args (job s) = Some a ->
   exists a',
     _make_test_result pl s =
       (Ok (mkTestResult (default "HumanTestResult" (arg_test_result a)) (Some a')),
        mkState (set_job_args (job s) (Some a'))
                (events s ++
                   [EvTestResult
                      (mkTestResult (default "HumanTestResult" (arg_test_result a))
                                    (Some a'))])) /\
     arg_test_result_total a' = Some (List.length pl) /\
     arg_test_result_debuglog a' = Some (debuglog (job s)) /\
     arg_test_result_loglevel a' = Some (loglevel (job s)) /\
     same_args_but_result a a').
Proof.
  split.
  - intros Hargs.
    unfold _make_test_result, in_frame, bind, get_self, emit, ret.
    rewrite Hargs. simpl. rewrite Hargs. by destruct s.
  - intros a Hargs.
    unfold _make_test_result, in_frame, bind, get_self, set_args, emit, ret.
    rewrite Hargs. simpl.
    exists (mkArgs (arg_unique_id a) (arg_log_level a) (arg_multiplex_file a)
                   (arg_url a) (arg_keep_tmp_files a) (arg_test_runner a)
                   (arg_test_result a) (Some (debuglog (job s)))
                   (Some (loglevel (job s))) (Some (List.length pl))).
    split; [destruct (arg_test_result a); reflexivity|].
    by repeat split.
Qed.

(** X14.  With a runner plugged in through [args.test_runner], the controller
    builds the parameter sets and the result object as usual and hands
    both to that runner: what the loop returns or raises is what the
    runner returns or raises, and [Job.test_runner] is not called. *)
Theorem run_loop_with_plugin (urls : option Urls) (mf : option string)
    (a : Args) (n : string) (pl : list Params) (s : State) :
  args (job s) = Some a ->
  arg_test_runner a = Some n ->
  _run_params_list E urls mf s = (Ok pl, s) ->
  exists tr s1,
    _make_test_result pl s = (Ok tr, s1) /\
    let o := plugin_test_runner E n pl tr (job s1) in
    _run_loop E urls mf s =
      (ro_result o,
       mkState (match ro_job_status o with
                | Some v => set_job_status (job s1) v
                | None => job s1
                end)
               (events s ++ [EvTestResult tr] ++ ro_events o)).
Proof.
  intros Hargs Hrunner Hpl.
  destruct (make_test_result_returns pl s)
    as (tr & s1 & Hmk & Hev & _ & Hcfg & _).
  exists tr, s1. split; [done|]. simpl.
  unfold _run_loop, bind at 1. rewrite Hpl.
  unfold bind at 1. rewrite Hmk.
  destruct Hcfg as (_ & _ & _ & Hsame). rewrite Hargs in Hsame. simpl in Hsame.
  destruct (args (job s1)) as [a1|] eqn:Hargs1; [|discriminate].
  injection Hsame as Hsame. rewrite Hrunner in Hsame.
  unfold bind, _make_test_runner, in_frame, bind, get_self, ret.
  rewrite Hargs1, <- Hsame. simpl.
  unfold call_plugin_test_runner, bind, get_self, emit_all, lift, set_status, ret.
  simpl. rewrite Hev.
  destruct (ro_job_status _); simpl; rewrite <- !app_assoc; reflexivity.
Qed.

(** The three ways [run] returns. *)
Lemma run_returns_cases (urls : option Urls) (mf : option string)
    (s s' : State) (c : ExitStatus) :
  run E urls mf s = (Ok c, s') ->
  (exists failures s1,
     _run_loop E urls mf s = (Ok failures, s1) /\
     _run E urls mf s = (Ok c, s') /\
     c = exit_status_of failures /\
     status (job s') =
       (if decide (status (job s1) = "RUNNING") then "PASS"
        else status (job s1))) \/
  (exists e s1 cls st,
     _run E urls mf s = (Raise e, s1) /\
     exc_class e = JobBaseException cls st /\
     c = AVOCADO_JOB_FAIL /\ status (job s') = st) \/
  (exists e s1,
     _run E urls mf s = (Raise e, s1) /\
     is_JobBaseException (exc_class e) = false /\
     is_Exception (exc_class e) = true /\
     c = AVOCADO_CRASH /\ status (job s') = "ERROR").
Proof.
  rewrite run_unfold.
  destruct (_run E urls mf s) as [[c0|e] s0] eqn:Hrun.
  - intros [= -> ->]. left.
    destruct (run_inv E urls mf s s' c Hrun) as (failures & s1 & Hloop & Hfin).
    exists failures, s1. rewrite run_finish_returns in Hfin.
    injection Hfin as <- <-. done.
  - simpl. destruct (exc_class e) as [| | | | | | |cls st|cls] eqn:Hcls; simpl;
      try (rewrite run_except_Exception_returns; simpl; rewrite ?Hcls;
           intros [= <- <-]; right; right; exists e, s0;
           rewrite Hcls; done);
      try discriminate.
    rewrite (run_except_JobBaseException_returns _ cls st) by done.
    intros [= <- <-]. right. left. by exists e, s0, cls, st.
Qed.

(** X15.  Where each exit status comes from: [AVOCADO_ALL_OK] and
    [AVOCADO_TESTS_FAIL] are what [_run] returned, and only that;
    [AVOCADO_JOB_FAIL] and [AVOCADO_CRASH] are never returned by [_run]
    but stand for an exception it raised, a job-level failure for the
    first and another [Exception] for the second. *)
Theorem run_verdict_origin (urls : option Urls) (mf : option string)
    (s s' : State) (c : ExitStatus) :
  run E urls mf s = (Ok c, s') ->
  match c with
  | AVOCADO_ALL_OK | AVOCADO_TESTS_FAIL => _run E urls mf s = (Ok c, s')
  | AVOCADO_JOB_FAIL =>
      exists e s1,
        _run E urls mf s = (Raise e, s1) /\
        is_JobBaseException (exc_class e) = true
  | AVOCADO_CRASH =>
      exists e s1,
        _run E urls mf s = (Raise e, s1) /\
        is_JobBaseException (exc_class e) = false /\
        is_Exception (exc_class e) = true
  end.
Proof.
  intros Hrun.
  destruct (run_returns_cases urls mf s s' c Hrun)
    as [(failures & s1 & _ & Hok & -> & _)
       |[(e & s1 & cls & st & Hraise & Hcls & -> & _)
        |(e & s1 & Hraise & Hjob & Hexc & -> & _)]].
  - by destruct failures.
  - exists e, s1. by rewrite Hcls.
  - by exists e, s1.
Qed.

(** X16.  The status of the job when [run] has returned: [ERROR] after
    [AVOCADO_CRASH], the status carried by the failure after
    [AVOCADO_JOB_FAIL], and after a verdict on the tests anything but
    [RUNNING]. *)
Theorem run_final_status (urls : option Urls) (mf : option string)
    (s s' : State) (c : ExitStatus) :
  run E urls mf s = (Ok c, s') ->
  match c with
  | AVOCADO_ALL_OK | AVOCADO_TESTS_FAIL => status (job s') <> "RUNNING"
  | AVOCADO_JOB_FAIL =>
      exists e s1, _run E urls mf s = (Raise e, s1) /\
                   exc_status e = Some (status (job s'))
  | AVOCADO_CRASH => status (job s') = "ERROR"
  end.
Proof.
  intros Hrun.
  destruct (run_returns_cases urls mf s s' c Hrun)
    as [(failures & s1 & _ & _ & -> & Hst)
       |[(e & s1 & cls & st & Hraise & Hcls & -> & Hst)
        |(e & s1 & _ & _ & _ & -> & Hst)]].
  - assert (status (job s') <> "RUNNING") as Hne.
    { rewrite Hst. destruct (decide (status (job s1) = "RUNNING")); done. }
    by destruct failures.
  - exists e, s1. split; [done|]. unfold exc_status. by rewrite Hcls, Hst.
  - done.
Qed.

Lemma job_status_after_unwritten (rs : list Ran) (st : string) :
  Forall (fun r => ran_job_status r = None) rs ->
  job_status_after rs st = st.
Proof.
  unfold job_status_after. induction 1 as [|r rs Hr _ IH]; simpl; [done|].
  by rewrite Hr.
Qed.

(** X17.  A job that is [RUNNING] and uses the default runner, whose tests all
    run to their end without writing on the job: the run returns the
    verdict on the failures and the job ends with the status [PASS],
    also when tests failed. *)
Theorem run_failures_leave_pass (urls : option Urls) (mf : option string)
    (pl : list Params) (rs : list Ran) (s : State) :
  status (job s) = "RUNNING" ->
  default_runner (job s) ->
  _run_params_list E urls mf s = (Ok pl, s) ->
  Forall2 (runs_as E (job s)) pl rs ->
  Forall (fun r => ran_job_status r = None) rs ->
  exists s',
    run E urls mf s = (Ok (exit_status_of (failures_of rs)), s') /\
    status (job s') = "PASS".
Proof.
  intros Hstatus Hdef Hpl Hrs Hquiet.
  destruct (run_loop_default_returns E urls mf s pl rs Hdef Hpl Hrs)
    as (tr & s1 & Hloop & _ & Hst & _).
  exists (_run_finish (failures_of rs) s1).2. split.
  - apply run_passes_result.
    rewrite (run_returns E urls mf s s1 _ Hloop), run_finish_returns.
    reflexivity.
  - rewrite run_finish_returns. simpl.
    rewrite Hst, (job_status_after_unwritten rs _ Hquiet), Hstatus.
    reflexivity.
Qed.

Lemma resolve_missing_shortname (j : Job) (params : Params) :
  params !! "shortname" = None ->
  resolve E j params =
    Raise (mkExc AttributeError "'NoneType' object has no attribute 'split'"
                 ["_load_test_instance"]).
Proof.
  intros Hnone. unfold resolve, _load_test_instance, in_frame, bind, get_self,
    raise.
  rewrite Hnone. reflexivity.
Qed.

(** X18.  A parameter set without [shortname], as a multiplex variant may be:
    with the default runner, the tests before it run, then the resolver
    raises [AttributeError], the loop stops, and [run] reports a crash:
    it returns [AVOCADO_CRASH] and the job ends with [ERROR]. *)
Theorem run_variant_without_shortname_crashes (urls : option Urls)
    (mf : option string) (pre : list Params) (rs : list Ran) (p : Params)
    (post : list Params) (s : State) :
  default_runner (job s) ->
  _run_params_list E urls mf s = (Ok (pre ++ p :: post), s) ->
  Forall2 (runs_as E (job s)) pre rs ->
  p !! "shortname" = None ->
  (_run E urls mf s).1 =
    Raise (mkExc AttributeError "'NoneType' object has no attribute 'split'"
                 ["_run"; "test_runner"; "run_test"; "_load_test_instance"]) /\
  (run E urls mf s).1 = Ok AVOCADO_CRASH /\
  status (job (run E urls mf s).2) = "ERROR".
Proof.
  intros Hdef Hpl Hpre Hnone.
  assert (exists s1,
            _run_loop E urls mf s =
              (Raise (mkExc AttributeError
                        "'NoneType' object has no attribute 'split'"
                        ["test_runner"; "run_test"; "_load_test_instance"]), s1))
    as [s1 Hloop].
  { unfold _run_loop, bind. rewrite Hpl.
    destruct (make_test_result_returns (pre ++ p :: post) s)
      as (tr & sa & Hmk & _ & _ & Hcfg & _).
    rewrite Hmk.
    rewrite make_test_runner_default
      by (by apply (default_runner_same_config (job s))).
    assert (Forall2 (runs_as E (job sa)) pre rs) as Hpre'.
    { eapply Forall2_impl; [exact Hpre|].
      intros q r. apply runs_as_same_identity. by destruct Hcfg. }
    rewrite (test_runner_unresolved E pre rs p post tr _ sa Hpre'
               (resolve_missing_shortname (job sa) p Hnone)).
    by eexists. }
  rewrite run_unfold, (run_raises E urls mf s s1 _ Hloop). simpl.
  rewrite run_except_Exception_returns. done.
Qed.

End ControllerMore.

(** ** What a run leaves of the job *)

#[local] Instance job_frame_kept_preorder : PreOrder job_frame_kept.
Proof.
  unfold job_frame_kept, same_job_frame. split.
  - intros s. repeat split.
    destruct (args (job s)); constructor. by repeat split.
  - intros s1 s2 s3 (?&?&?&?&?&?&?&Ha) (?&?&?&?&?&?&?&Ha').
    repeat split; try congruence.
    destruct Ha as [a1 a2 (?&?&?&?&?&?&?)|]; inversion Ha' as [? a3 (?&?&?&?&?&?&?)|];
      subst; constructor.
    repeat split; congruence.
Qed.

Section Frame.

Context (E : Env).

Lemma frame_of_status (s s' : State) :
  only_status_written s s' -> job_frame_kept s s'.
Proof.
  intros [st Hst]. unfold job_frame_kept, same_job_frame. rewrite Hst. simpl.
  repeat split. destruct (args (job s)); constructor. by repeat split.
Qed.

Lemma frame_set_status (st : string) : preserves job_frame_kept (set_status st).
Proof. intros s. apply frame_of_status. by exists st. Qed.

Lemma frame_emit (ev : Event) : preserves job_frame_kept (emit ev).
Proof. intros s. apply frame_of_status, only_status_emit. Qed.

Lemma frame_emit_all (evs : list Event) : preserves job_frame_kept (emit_all evs).
Proof.
  intros s. apply frame_of_status. exists (status (job s)). simpl.
  by rewrite set_job_status_same.
Qed.

Lemma frame_load_test_instance (params : Params) :
  preserves job_frame_kept (_load_test_instance E params).
Proof. intros s. rewrite load_test_instance_state. reflexivity. Qed.

Lemma frame_run_params_list (urls : option Urls) (mf : option string) :
  preserves job_frame_kept (_run_params_list E urls mf).
Proof. intros s. rewrite run_params_list_state. reflexivity. Qed.

Lemma frame_make_test_result (pl : list Params) :
  preserves job_frame_kept (_make_test_result pl).
Proof.
  intros s. unfold _make_test_result, in_frame, bind, get_self, set_args,
    emit, ret.
  unfold job_frame_kept, same_job_frame.
  destruct (args (job s)) as [a|] eqn:Hargs; simpl; rewrite ?Hargs;
    repeat split; constructor.
  by repeat split.
Qed.

#[local] Hint Resolve frame_set_status frame_emit frame_emit_all
  frame_load_test_instance frame_run_params_list frame_make_test_result
  : preserves.

Lemma frame_test_runner (pl : list Params) (tr : TestResult) :
  preserves job_frame_kept (test_runner E pl tr).
Proof.
  unfold test_runner, test_runner_body, run_test, call_run_avocado,
    status_mapping_getitem.
  preserves_auto job_frame_kept.
Qed.

Lemma frame_plugin_test_runner (n : string) (pl : list Params)
    (tr : TestResult) :
  preserves job_frame_kept (call_plugin_test_runner E n pl tr).
Proof.
  unfold call_plugin_test_runner.
  apply (preserves_bind job_frame_kept); [apply preserves_get_self, _|].
  intros self. preserves_auto job_frame_kept.
Qed.

Lemma frame_run_loop (urls : option Urls) (mf : option string) :
  preserves job_frame_kept (_run_loop E urls mf).
Proof.
  unfold _run_loop.
  apply (preserves_bind job_frame_kept); [auto with preserves|]. intros pl.
  apply (preserves_bind job_frame_kept); [auto with preserves|]. intros tr.
  apply (preserves_bind_ok job_frame_kept).
  - unfold _make_test_runner. preserves_auto job_frame_kept.
  - intros s runner s'.
    unfold _make_test_runner, in_frame, bind, get_self, ret.
    destruct (args (job s)) as [a|]; [destruct (arg_test_runner a)|];
      intros [= <- <-];
      first [apply frame_plugin_test_runner | apply frame_test_runner].
Qed.

Lemma frame_run (urls : option Urls) (mf : option string) :
  preserves job_frame_kept (run E urls mf).
Proof.
  intros s. rewrite run_unfold.
  pose proof (frame_run_loop urls mf s) as Hloop.
  destruct (_run_loop E urls mf s) as [[failures|e] s1] eqn:Hl; simpl in Hloop.
  - rewrite (run_returns E urls mf s s1 failures Hl), run_finish_returns.
    simpl. etransitivity; [exact Hloop|].
    apply frame_of_status. eexists. simpl. reflexivity.
  - rewrite (run_raises E urls mf s s1 e Hl). simpl.
    destruct (is_JobBaseException (exc_class e)) eqn:Hjob.
    + destruct (exc_class e) as [| | | | | | |cls st|] eqn:Hcls;
        try discriminate.
      rewrite (run_except_JobBaseException_returns _ cls st) by done.
      simpl. etransitivity; [exact Hloop|].
      apply frame_of_status. eexists. simpl. reflexivity.
    + destruct (is_Exception (exc_class e)); [|exact Hloop].
      rewrite run_except_Exception_returns. simpl.
      etransitivity; [exact Hloop|].
      apply frame_of_status. eexists. simpl. reflexivity.
Qed.

(** X19.  Whatever a run does and however it ends, with tests and runners
    that write at most the status of the job, [run] leaves the job what
    it was made: its identifier, its log directory and log file, its
    log level, its test directory; of [args] it changes nothing but the
    three attributes [_make_test_result] writes, and a job without
    [args] stays without. *)
Theorem run_keeps_job_frame (urls : option Urls) (mf : option string)
    (s : State) :
  same_job_frame (job s) (job (run E urls mf s).2).
Proof.
  change (job_frame_kept s (run E urls mf s).2). rewrite run_unfold.
  pose proof (frame_run_loop urls mf s) as Hloop.
  destruct (_run_loop E urls mf s) as [[failures|e] s1] eqn:Hl; simpl in Hloop.
  - rewrite (run_returns E urls mf s s1 failures Hl), run_finish_returns.
    simpl. etransitivity; [exact Hloop|].
    apply frame_of_status. eexists. simpl. reflexivity.
  - rewrite (run_raises E urls mf s s1 e Hl). simpl.
    destruct (is_JobBaseException (exc_class e)) eqn:Hjob.
    + destruct (exc_class e) as [| | | | | | |cls st|] eqn:Hcls;
        try discriminate.
      rewrite (run_except_JobBaseException_returns _ cls st) by done.
      simpl. etransitivity; [exact Hloop|].
      apply frame_of_status. eexists. simpl. reflexivity.
    + destruct (is_Exception (exc_class e)); [|exact Hloop].
      rewrite run_except_Exception_returns. simpl.
      etransitivity; [exact Hloop|].
      apply frame_of_status. eexists. simpl. reflexivity.
Qed.

(** A job without [args] never calls [clean_tmp_files]. *)
Lemma run_no_args_cleanups (urls : option Urls) (mf : option string)
    (s : State) :
  args (job s) = None ->
  cleanups (events (run E urls mf s).2) = cleanups (events s).
Proof.
  intros Hargs.
  assert (default_runner (job s)) as Hdef by (intros a Ha; congruence).
  pose proof (quiet_run_loop E urls mf s Hdef) as Hquiet.
  rewrite run_unfold.
  destruct (_run_loop E urls mf s) as [[failures|e] s1] eqn:Hloop;
    simpl in Hquiet; destruct Hquiet as (Hcl & Hkeep & _).
  - rewrite (run_returns E urls mf s s1 failures Hloop), run_finish_returns.
    simpl. rewrite cleanups_app, Hcl. rewrite Hargs in Hkeep.
    destruct (args (job s1)); [discriminate|]. simpl. lia.
  - rewrite (run_raises E urls mf s s1 e Hloop). simpl.
    destruct (is_JobBaseException (exc_class e)) eqn:Hjob.
    + destruct (exc_class e) as [| | | | | | |cls st|] eqn:Hcls; try done.
      rewrite (run_except_JobBaseException_returns _ cls st) by done.
      simpl. rewrite cleanups_app. simpl. lia.
    + destruct (is_Exception (exc_class e)); [|done].
      rewrite run_except_Exception_returns. simpl.
      rewrite cleanups_app. simpl.
      rewrite cleanups_app, cleanups_errors. simpl. lia.
Qed.

(** X20.  A new job is never without an identifier nor with the log level
    [0]: an empty [unique_id] and a zero [log_level] in [args] are
    replaced like absent ones.  It starts [RUNNING], with the test index
    [1] and its debug log in its log directory. *)
Theorem Job_init_invariants (a : option Args) :
  uuid4 E <> "" ->
  unique_id (Job_init E a) <> "" /\
  loglevel (Job_init E a) <> 0%Z /\
  status (Job_init E a) = "RUNNING" /\
  test_index (Job_init E a) = 1%Z /\
  debuglog (Job_init E a) = os_path_join (debugdir (Job_init E a)) "debug.log" /\
  (forall a' u, a = Some a' -> arg_unique_id a' = Some u -> u <> "" ->
     unique_id (Job_init E a) = u) /\
  (forall a' l, a = Some a' -> arg_log_level a' = Some l -> l <> 0%Z ->
     loglevel (Job_init E a) = l).
Proof.
  intros Huuid. unfold Job_init. simpl.
  split; [|split; [|split; [done|split; [done|split; [done|split]]]]].
  - destruct a as [a'|]; [|done]. unfold or_string.
    destruct (arg_unique_id a') as [u|]; [|done]. by destruct (decide (u = "")).
  - destruct a as [a'|]; [|done]. unfold or_int.
    destruct (arg_log_level a') as [l|]; [|done]. by destruct (decide (l = 0%Z)).
  - intros a' u -> Hu Hne. unfold or_string. rewrite Hu.
    by destruct (decide (u = "")).
  - intros a' l -> Hl Hne. unfold or_int. rewrite Hl.
    by destruct (decide (l = 0%Z)).
Qed.

End Frame.

(** ** The runner of test modules *)

Section ModuleRunner.

Context {O : Type} (Py : Python O) (E : Env).

(** Items that are no subclass of [test.Test] leave the url as it is. *)
Lemma runner_url_skip (items : list (string * O)) (url : option string) :
  Forall (fun kv => py_issubclass_Test Py kv.2 <> Some true) items ->
  fold_left (fun url kv =>
               match py_issubclass_Test Py kv.2 with
               | Some true => Some kv.1
               | _ => url
               end) items url = url.
Proof.
  intros Hall. revert url.
  induction Hall as [|kv items Hkv _ IH]; intros url; simpl; [done|].
  rewrite IH. destruct (py_issubclass_Test Py kv.2) as [[|]|]; done.
Qed.

Lemma runner_url_last (pre post : list (string * O)) (k : string) (v : O) :
  py_issubclass_Test Py v = Some true ->
  Forall (fun kv => py_issubclass_Test Py kv.2 <> Some true) post ->
  runner_url Py (pre ++ (k, v) :: post) = Some k.
Proof.
  intros Hv Hpost. unfold runner_url. rewrite fold_left_app. simpl.
  rewrite Hv. by apply runner_url_skip.
Qed.

(** X21.  A module with no subclass of [test.Test] in its namespace: a job is
    made, nothing is run, and the runner exits with [AVOCADO_ALL_OK]. *)
Theorem module_runner_without_test_class (module : ModuleArg O) (m : O)
    (items : list (string * O)) :
  runner_module Py module = Ok m ->
  py_dict_items Py m = inr items ->
  Forall (fun kv => py_issubclass_Test Py kv.2 <> Some true) items ->
  TestModuleRunner_init Py E module =
    (Ok (SysExit AVOCADO_ALL_OK), Some (mkState (Job_init E None) [])).
Proof.
  intros Hmod Hitems Hnone. unfold TestModuleRunner_init.
  rewrite Hmod, Hitems. unfold runner_url.
  by rewrite (runner_url_skip items None Hnone).
Qed.

(** X22.  A module with subclasses of [test.Test]: the one whose item comes
    last in the iteration of the namespace gives the identifier, a new
    job without [args] runs that one identifier, and the runner exits
    with what [run] returns, or raises what [run] raises. *)
Theorem module_runner_runs_last_test_class (module : ModuleArg O) (m : O)
    (pre post : list (string * O)) (k : string) (v : O) :
  runner_module Py module = Ok m ->
  py_dict_items Py m = inr (pre ++ (k, v) :: post) ->
  py_issubclass_Test Py v = Some true ->
  Forall (fun kv => py_issubclass_Test Py kv.2 <> Some true) post ->
  TestModuleRunner_init Py E module =
    match run E (Some (UrlsList [k])) None (mkState (Job_init E None) []) with
    | (Ok c, s') => (Ok (SysExit c), Some s')
    | (Raise e, s') => (Raise (from_init e), Some s')
    end.
Proof.
  intros Hmod Hitems Hv Hpost. unfold TestModuleRunner_init.
  rewrite Hmod, Hitems. by rewrite (runner_url_last pre post k v Hv Hpost).
Qed.


(** X24.  The job of a module runner is made without [args] and stays so: it
    has the generated identifier and the default log directory, and
    [clean_tmp_files] is never called. *)
Theorem module_runner_job_has_no_args (module : ModuleArg O)
    (r : Result Exited) (s' : State) :
  TestModuleRunner_init Py E module = (r, Some s') ->
  args (job s') = None /\
  unique_id (job s') = uuid4 E /\
  debugdir (job s') = get_job_logs_dir E None /\
  cleanups (events s') = 0.
Proof.
  unfold TestModuleRunner_init.
  destruct (runner_module Py module) as [m|e]; [|discriminate].
  destruct (py_dict_items Py m) as [e|items]; [discriminate|].
  assert (forall s0 : State,
            s0 = (run E (Some (UrlsList [default "" (runner_url Py items)])) None
                    (mkState (Job_init E None) [])).2 ->
            args (job s0) = None /\ unique_id (job s0) = uuid4 E /\
            debugdir (job s0) = get_job_logs_dir E None /\
            cleanups (events s0) = 0) as Hrun.
  { intros s0 ->.
    pose proof (frame_run E (Some (UrlsList [default "" (runner_url Py items)]))
                  None (mkState (Job_init E None) [])) as Hframe.
    destruct Hframe as (Hid & Hdir & _ & _ & _ & _ & _ & Hargs).
    simpl in *. split; [by inversion Hargs|].
    split; [done|]. split; [done|].
    by rewrite run_no_args_cleanups. }
  destruct (runner_url Py items) as [u|]; simpl in Hrun.
  - destruct (run E (Some (UrlsList [u])) None _) as [[c|e] s0] eqn:Hr;
      intros [= <- <-]; by apply Hrun.
  - intros [= <- <-]. done.
Qed.

End ModuleRunner.

(** ** The further properties at work *)

Lemma load_missing_shortname_raises_witness :
  (∅ : Params) !! "shortname" = None /\
  _load_test_instance Sample.env ∅ Sample.fresh =
    (Raise (mkExc AttributeError "'NoneType' object has no attribute 'split'"
                  ["_load_test_instance"]), Sample.fresh).
Proof.
  split; [reflexivity|].
  apply (load_missing_shortname_raises Sample.env ∅ Sample.fresh).
  reflexivity.
Defined.


Lemma load_returns_invariant_witness :
  _load_test_instance Sample.env (bare_params "sleeptest.1") Sample.fresh =
    (Ok (mkTest (ModuleTest "sleeptest") "sleeptest" None
                "/home/user/avocado/logs/run-1"
                (Some (bare_params "sleeptest.1")) "7e8a1f0c" None),
     Sample.fresh) /\
  exists shortname,
    bare_params "sleeptest.1" !! "shortname" = Some shortname /\
    identifier_prefix shortname = "sleeptest".
Proof.
  split; [reflexivity|].
  destruct (load_returns_invariant Sample.env (bare_params "sleeptest.1")
              Sample.fresh Sample.fresh
              (mkTest (ModuleTest "sleeptest") "sleeptest" None
                      "/home/user/avocado/logs/run-1"
                      (Some (bare_params "sleeptest.1")) "7e8a1f0c" None)
              eq_refl)
    as (_ & _ & _ & _ & shortname & Hshort & [(_ & Hcls & _) | (_ & Hname & _)]).
  - discriminate Hcls.
  - exists shortname. split; [exact Hshort|]. symmetry. exact Hname.
Defined.

Lemma load_import_error_gives_missing_witness :
  _load_test_instance Sample.env (bare_params "nothing.1") Sample.fresh =
    (Ok (mkTest MissingTest "nothing" None "/home/user/avocado/logs/run-1"
                (Some (bare_params "nothing.1")) "7e8a1f0c" None),
     Sample.fresh).
Proof.
  apply (load_import_error_gives_missing Sample.env (bare_params "nothing.1")
           "nothing.1" Sample.fresh).
  - reflexivity.
  - reflexivity.
  - left. reflexivity.
Defined.

Lemma load_depends_on_prefix_only_witness :
  bare_params "sleeptest" !! "shortname" = Some "sleeptest" /\
  Sample.variant "long" "5" !! "shortname" = Some "sleeptest.long" /\
  identifier_prefix "sleeptest" = identifier_prefix "sleeptest.long" /\
  ti_kind (Sample.instance (ModuleTest "sleeptest") "sleeptest") =
  ti_kind (mkTest (ModuleTest "sleeptest") "sleeptest" None
                  "/home/user/avocado/logs/run-1"
                  (Some (Sample.variant "long" "5")) "7e8a1f0c" None).
Proof.
  do 3 (split; [reflexivity|]).
  destruct (load_depends_on_prefix_only Sample.env
              (bare_params "sleeptest") (Sample.variant "long" "5")
              "sleeptest" "sleeptest.long" Sample.fresh
              eq_refl eq_refl eq_refl) as [Hboth _].
  apply Hboth; reflexivity.
Defined.

(** The class [strict] takes the variant that has [sleep_length] and
    refuses the bare parameter set of the same prefix. *)
Example load_strict_constructor :
  _load_test_instance Sample.env_strict (bare_params "strict") Sample.fresh =
    (Raise (mkExc KeyError "'sleep_length'"
                  ["_load_test_instance"; "__init__"]), Sample.fresh) /\
  _load_test_instance Sample.env_strict
    (<[ "sleep_length" := "5" ]> (bare_params "strict.long")) Sample.fresh =
    (Ok (mkTest (ModuleTest "strict") "strict" None
                "/home/user/avocado/logs/run-1"
                (Some (<[ "sleep_length" := "5" ]> (bare_params "strict.long")))
                "7e8a1f0c" None), Sample.fresh).
Proof. split; reflexivity. Qed.

Lemma load_package_raises_witness :
  _load_test_instance Sample.env_pkg (bare_params "pkgtest") Sample.fresh =
    (Raise (mkExc UnboundLocalError
                  "local variable 'test_class' referenced before assignment"
                  ["_load_test_instance"]), Sample.fresh).
Proof.
  apply (load_package_raises Sample.env_pkg (bare_params "pkgtest") "pkgtest"
           Sample.fresh
           (mkFound None "/usr/share/avocado/tests/pkgtest/pkgtest" "")
           {[ "pkgtest" := AttrClass "pkgtest" ]}); reflexivity.
Defined.

Lemma test_runner_stops_at_unresolved_test_witness :
  test_runner Sample.env
    ([bare_params "sleeptest"] ++ bare_params "helper" :: [bare_params "failtest"])
    Sample.human Sample.fresh =
    (Raise (mkExc UnboundLocalError
                  "local variable 'test_class' referenced before assignment"
                  ["test_runner"; "run_test"; "_load_test_instance"]),
     after_tests
       [mkRan (Sample.instance (ModuleTest "sleeptest") "sleeptest") "PASS" None
              true]
       Sample.fresh).
Proof.
  apply (test_runner_stops_at_unresolved_test Sample.env
           [bare_params "sleeptest"]
           [mkRan (Sample.instance (ModuleTest "sleeptest") "sleeptest") "PASS"
                  None true]
           (bare_params "helper") [bare_params "failtest"] Sample.human
           (mkExc UnboundLocalError
              "local variable 'test_class' referenced before assignment"
              ["_load_test_instance"])
           Sample.fresh).
  - repeat constructor.
  - reflexivity.
Defined.

Lemma test_runner_stops_when_run_raises_witness :
  test_runner Sample.env
    ([bare_params "sleeptest"] ++ bare_params "stopped" :: [bare_params "failtest"])
    Sample.human Sample.fresh =
    (Raise (mkExc KeyboardInterrupt ""
                  ["test_runner"; "run_test"; "run_avocado"]),
     mkState (job Sample.fresh)
             [EvStartTests;
              EvRunAvocado (Sample.instance (ModuleTest "sleeptest") "sleeptest");
              EvCheckTest
                (set_test_status
                   (Sample.instance (ModuleTest "sleeptest") "sleeptest")
                   (Some "PASS"));
              EvRunAvocado (Sample.instance (ModuleTest "stopped") "stopped")]).
Proof.
  apply (test_runner_stops_when_run_raises Sample.env
           [bare_params "sleeptest"]
           [mkRan (Sample.instance (ModuleTest "sleeptest") "sleeptest") "PASS"
                  None true]
           (bare_params "stopped") [bare_params "failtest"] Sample.human
           (Sample.instance (ModuleTest "stopped") "stopped")
           (mkExc KeyboardInterrupt "" ["run_avocado"])
           Sample.fresh).
  - repeat constructor.
  - reflexivity.
  - reflexivity.
Defined.

Lemma test_runner_unknown_status_witness :
  test_runner Sample.env_odd
    ([] ++ bare_params "sleeptest" :: [bare_params "failtest"])
    Sample.human Sample.fresh =
    (Raise (mkExc KeyError "'INTERRUPTED'" ["test_runner"]),
     mkState (job Sample.fresh)
             [EvStartTests;
              EvRunAvocado (Sample.instance (ModuleTest "sleeptest") "sleeptest");
              EvCheckTest
                (set_test_status
                   (Sample.instance (ModuleTest "sleeptest") "sleeptest")
                   (Some "INTERRUPTED"))]).
Proof.
  apply (test_runner_unknown_status Sample.env_odd [] []
           (bare_params "sleeptest") [bare_params "failtest"] Sample.human
           (Sample.instance (ModuleTest "sleeptest") "sleeptest")
           (Some "INTERRUPTED") None Sample.fresh).
  - constructor.
  - reflexivity.
  - reflexivity.
  - intros v [= <-]. reflexivity.
Defined.

Lemma test_runner_returns_only_if_all_ran_witness :
  test_runner Sample.env
    [bare_params "sleeptest"; bare_params "failtest"; bare_params "nothing"]
    Sample.human Sample.fresh =
    (Ok ["failtest"; "nothing"],
     (test_runner Sample.env
        [bare_params "sleeptest"; bare_params "failtest"; bare_params "nothing"]
        Sample.human Sample.fresh).2) /\
  exists rs new,
    Forall2 (runs_as Sample.env (job Sample.fresh))
      [bare_params "sleeptest"; bare_params "failtest"; bare_params "nothing"]
      rs /\
    check_tests new = 3.
Proof.
  split; [reflexivity|].
  destruct (test_runner_returns_only_if_all_ran Sample.env
              [bare_params "sleeptest"; bare_params "failtest";
               bare_params "nothing"]
              Sample.human ["failtest"; "nothing"] Sample.fresh
              (test_runner Sample.env
                 [bare_params "sleeptest"; bare_params "failtest";
                  bare_params "nothing"]
                 Sample.human Sample.fresh).2
              eq_refl)
    as (rs & new & Hrs & _ & _ & _ & Hchecks & _).
  exists rs, new. split; [exact Hrs | exact Hchecks].
Defined.

Lemma params_list_multiplex_alone_witness :
  _run_multiplex_file Sample.env (job Sample.fresh) (Some "sleep.mplx") =
    Some "/home/user/sleep.mplx" /\
  _run_params_list Sample.env None (Some "sleep.mplx") Sample.fresh =
    (Ok [Sample.variant "short" "1"; Sample.variant "long" "5"], Sample.fresh) /\
  _run_params_list Sample.env (Some (UrlsStr "  ")) (Some "sleep.mplx")
    Sample.fresh = (Ok [], Sample.fresh).
Proof.
  split; [reflexivity|]. split.
  - apply (params_list_multiplex_alone Sample.env None (Some "sleep.mplx")
             "/home/user/sleep.mplx" Sample.fresh eq_refl);
      [reflexivity | discriminate | reflexivity].
  - apply (params_list_multiplex_alone Sample.env (Some (UrlsStr "  "))
             (Some "sleep.mplx") "/home/user/sleep.mplx" Sample.fresh eq_refl).
    reflexivity.
Defined.

Lemma run_builder_failure_touches_nothing_witness :
  is_Some (_run_multiplex_file Sample.env (job Sample.fresh) (Some "nofile")) /\
  _run Sample.env (Some (UrlsList ["sleeptest"])) (Some "nofile") Sample.fresh =
    (Raise (mkExc (OtherException "IOError") "No such file or directory"
                  ["_run"; "Parser"]), Sample.fresh).
Proof.
  apply (run_builder_failure_touches_nothing Sample.env
           (Some (UrlsList ["sleeptest"])) (Some "nofile")
           (mkExc (OtherException "IOError") "No such file or directory"
                  ["Parser"])
           Sample.fresh).
  reflexivity.
Defined.

Lemma make_test_result_seeds_total_witness :
  args (job Sample.fresh) = None /\
  args (job Sample.from_cli) = Some Sample.cli_args /\
  (_make_test_result [bare_params "sleeptest"] Sample.fresh).1 =
    Ok (mkTestResult "HumanTestResult" None) /\
  exists a',
    (_make_test_result [bare_params "sleeptest"; bare_params "failtest"]
       Sample.from_cli).1 = Ok (mkTestResult "HumanTestResult" (Some a')) /\
    arg_test_result_total a' = Some 2.
Proof.
  destruct (make_test_result_seeds_total [bare_params "sleeptest"] Sample.fresh)
    as [Hnone _].
  destruct (make_test_result_seeds_total
              [bare_params "sleeptest"; bare_params "failtest"] Sample.from_cli)
    as [_ Hsome].
  split; [reflexivity|]. split; [reflexivity|]. split.
  - rewrite (Hnone eq_refl). reflexivity.
  - destruct (Hsome Sample.cli_args eq_refl) as (a' & Heq & Htotal & _).
    exists a'. split; [|exact Htotal]. rewrite Heq. reflexivity.
Defined.

Lemma run_loop_with_plugin_witness :
  args (job Sample.from_plugin) = Some Sample.plugin_args /\
  exists tr s1,
    _make_test_result [bare_params "sleeptest"] Sample.from_plugin = (Ok tr, s1) /\
    _run_loop Sample.env None None Sample.from_plugin =
      (Ok [], mkState (job s1) (events Sample.from_plugin ++ [EvTestResult tr])).
Proof.
  split; [reflexivity|].
  destruct (run_loop_with_plugin Sample.env None None Sample.plugin_args
              "remote" [bare_params "sleeptest"] Sample.from_plugin
              eq_refl eq_refl eq_refl) as (tr & s1 & Hmk & Hloop).
  exists tr, s1. split; [exact Hmk|]. simpl in Hloop.
  rewrite Hloop. reflexivity.
Defined.

Lemma run_verdict_origin_witness :
  (run Sample.env (Some (UrlsList ["helper"])) None Sample.fresh).1 =
    Ok AVOCADO_CRASH /\
  exists e s1,
    _run Sample.env (Some (UrlsList ["helper"])) None Sample.fresh = (Raise e, s1) /\
    is_JobBaseException (exc_class e) = false /\
    is_Exception (exc_class e) = true.
Proof.
  split; [reflexivity|].
  apply (run_verdict_origin Sample.env (Some (UrlsList ["helper"])) None
           Sample.fresh
           (run Sample.env (Some (UrlsList ["helper"])) None Sample.fresh).2
           AVOCADO_CRASH).
  reflexivity.
Defined.

Lemma run_final_status_witness :
  (run Sample.env (Some (UrlsList ["sleeptest"; "failtest"])) None
     Sample.fresh).1 = Ok AVOCADO_TESTS_FAIL /\
  status (job (run Sample.env (Some (UrlsList ["sleeptest"; "failtest"])) None
                 Sample.fresh).2) <> "RUNNING".
Proof.
  split; [reflexivity|].
  apply (run_final_status Sample.env (Some (UrlsList ["sleeptest"; "failtest"]))
           None Sample.fresh
           (run Sample.env (Some (UrlsList ["sleeptest"; "failtest"])) None
              Sample.fresh).2
           AVOCADO_TESTS_FAIL).
  reflexivity.
Defined.

Lemma run_failures_leave_pass_witness :
  status (job Sample.fresh) = "RUNNING" /\
  exists s',
    run Sample.env
      (Some (UrlsList ["sleeptest"; "failtest"; "nothing"])) None Sample.fresh =
      (Ok AVOCADO_TESTS_FAIL, s') /\
    status (job s') = "PASS".
Proof.
  split; [reflexivity|].
  apply (run_failures_leave_pass Sample.env
           (Some (UrlsList ["sleeptest"; "failtest"; "nothing"])) None
           [bare_params "sleeptest"; bare_params "failtest"; bare_params "nothing"]
           Sample.three_ran Sample.fresh).
  - reflexivity.
  - intros a Ha. discriminate Ha.
  - reflexivity.
  - repeat constructor.
  - repeat constructor.
Defined.

Lemma run_variant_without_shortname_crashes_witness :
  Sample.nameless !! "shortname" = None /\
  (run Sample.env_nameless None (Some "sleep.mplx") Sample.fresh).1 =
    Ok AVOCADO_CRASH /\
  status (job (run Sample.env_nameless None (Some "sleep.mplx")
                 Sample.fresh).2) = "ERROR".
Proof.
  split; [reflexivity|].
  destruct (run_variant_without_shortname_crashes Sample.env_nameless None
              (Some "sleep.mplx") [Sample.variant "short" "1"]
              [Sample.short_ran] Sample.nameless [] Sample.fresh)
    as (_ & Hcrash & Hstatus).
  - intros a Ha. discriminate Ha.
  - reflexivity.
  - repeat constructor.
  - reflexivity.
  - split; [exact Hcrash | exact Hstatus].
Defined.

Lemma Job_init_invariants_witness :
  uuid4 Sample.env <> "" /\
  unique_id (Job_init Sample.env (Some Sample.cli_args)) = "7e8a1f0c" /\
  loglevel (Job_init Sample.env (Some Sample.cli_args)) <> 0%Z.
Proof.
  assert (uuid4 Sample.env <> "") as Huuid by discriminate.
  destruct (Job_init_invariants Sample.env (Some Sample.cli_args) Huuid)
    as (_ & Hlevel & _).
  split; [exact Huuid|]. split; [reflexivity | exact Hlevel].
Defined.

Lemma module_runner_without_test_class_witness :
  TestModuleRunner_init Sample.python Sample.env (ModuleName "tools") =
    (Ok (SysExit AVOCADO_ALL_OK), Some Sample.fresh).
Proof.
  apply (module_runner_without_test_class Sample.python Sample.env
           (ModuleName "tools") Sample.ModTools [("main", Sample.Function)]).
  - reflexivity.
  - reflexivity.
  - repeat constructor; discriminate.
Defined.

Lemma module_runner_runs_last_test_class_witness :
  TestModuleRunner_init Sample.python Sample.env (ModuleObject Sample.ModSleeptest)
    = (Ok (SysExit AVOCADO_ALL_OK),
       Some (run Sample.env (Some (UrlsList ["sleeptest"])) None Sample.fresh).2).
Proof.
  rewrite (module_runner_runs_last_test_class Sample.python Sample.env
             (ModuleObject Sample.ModSleeptest) Sample.ModSleeptest
             [("main", Sample.Function)] [("Clock", Sample.ClassOther)]
             "sleeptest" Sample.ClassSleeptest).
  - reflexivity.
  - reflexivity.
  - reflexivity.
  - reflexivity.
  - repeat constructor; discriminate.
Defined.


Lemma module_runner_job_has_no_args_witness :
  args (job (run Sample.env (Some (UrlsList ["sleeptest"])) None
               Sample.fresh).2) = None /\
  cleanups (events (run Sample.env (Some (UrlsList ["sleeptest"])) None
                      Sample.fresh).2) = 0.
Proof.
  destruct (module_runner_job_has_no_args Sample.python Sample.env
              (ModuleObject Sample.ModSleeptest)
              (Ok (SysExit AVOCADO_ALL_OK))
              (run Sample.env (Some (UrlsList ["sleeptest"])) None
                 Sample.fresh).2
              eq_refl) as (Hargs & _ & _ & Hclean).
  split; [exact Hargs | exact Hclean].
Defined.
